(** * travelapi: combined flight search, supplier clients, FlyHub token cache

    A shallow embedding of

      - [app/flight_services/services/combined_service.py]  ([combined_search]),
      - [app/flight_services/clients/bdfare_client.py]
        ([fetch_bdfare_flights], [fallback_to_requests]),
      - [app/flight_services/routes/bdfare/search.py]  ([search_flights]),
      - [app/flight_services/routes/combined/combined_search.py]
        ([cached_token], [fetch_flyhub_flights], [authenticate_flyhub]),

    followed by the properties of the orchestration layer.

    Python values are modelled as they are used: unbounded [int] as [Z],
    [str] as [string], JSON documents as the inductive [json], exceptions as
    the inductive [exn], and a call that may raise as an [outcome].  Outbound
    network calls are recorded in a trace of [event]s, so that "no supplier
    request was sent" is the statement that the trace is empty. *)

From Stdlib Require Import ZArith List String Bool Lia QArith Lqa DecimalString.
Import ListNotations.
Set Warnings "-register-all".
Open Scope string_scope.
Open Scope Z_scope.

(* ------------------------------------------------------------------ *)
(** ** Python values *)

Module Py.

(** A parsed JSON document ([response.json()], a request body, one offer). *)
Inductive json : Type :=
| JNull
| JBool (b : bool)
| JNum (n : Z)
| JStr (s : string)
| JArr (items : list json)
| JObj (fields : list (string * json)).

(** Python truthiness, [bool(v)], of a JSON value ([None] is [JNull]). *)
Definition truthy (v : json) : bool :=
  match v with
  | JNull => false
  | JBool b => b
  | JNum n => negb (n =? 0)
  | JStr s => negb (s =? "")%string
  | JArr items => match items with [] => false | _ => true end
  | JObj fields => match fields with [] => false | _ => true end
  end.

(** Truthiness of an [Optional[str]]: [None] and [""] are falsy. *)
Definition truthy_str (v : option string) : bool :=
  match v with
  | None => false
  | Some s => negb (s =? "")%string
  end.

(** The string held by an [Optional[str]]; [None] prints as ["None"]. *)
Definition str_opt (v : option string) : string :=
  match v with
  | Some s => s
  | None => "None"
  end.

(** [d[key]] / [d.get(key)] on a JSON object. *)
Fixpoint lookup (key : string) (fields : list (string * json)) : option json :=
  match fields with
  | [] => None
  | (k, v) :: rest => if (k =? key)%string then Some v else lookup key rest
  end.

(** The exception classes the four files raise or catch.  [ValueError] also
    stands for its subclass [json.JSONDecodeError]; [RequestError] is
    [httpx.RequestError]; [OtherException] is any other subclass of
    [Exception].  What is not an [Exception] (a cancellation, which no
    [except Exception] catches) is not part of the model. *)
Inductive exn : Type :=
| KeyError (key : string)
| ValueError (msg : string)
| TypeError (msg : string)
| HTTPException (status_code : Z) (detail : string)
| RequestError (msg : string)
| OtherException (msg : string).

(** [str(n)] for an [int]. *)
Definition str_int (n : Z) : string := NilZero.string_of_int (Z.to_int n).

(** [repr(s)] for a [str]: single quotes, or double quotes when the string
    holds a single quote and no double one; the quote in use and the
    backslash are escaped, tab, newline and return are written [\t], [\n],
    [\r], any other control character as [\x] and two hexadecimal digits.
    Bytes from 128 on, the UTF-8 of characters beyond ASCII, are kept as
    they are, as [repr] keeps every such character that is printable. *)
Definition single_quote : Ascii.ascii := Ascii.ascii_of_nat 39.
Definition double_quote : Ascii.ascii := Ascii.ascii_of_nat 34.
Definition backslash : Ascii.ascii := Ascii.ascii_of_nat 92.
Definition letter_x : Ascii.ascii := Ascii.ascii_of_nat 120.

Definition hex_digit (n : nat) : Ascii.ascii :=
  Ascii.ascii_of_nat (if (n <? 10)%nat then 48 + n else 87 + n).

Definition repr_char (quote c : Ascii.ascii) : string :=
  let n := Ascii.nat_of_ascii c in
  if (Ascii.eqb c quote || Ascii.eqb c backslash)%bool then
    String backslash (String c EmptyString)
  else if (n =? 9)%nat then String backslash "t"
  else if (n =? 10)%nat then String backslash "n"
  else if (n =? 13)%nat then String backslash "r"
  else if ((n <? 32) || (n =? 127))%nat then
    String backslash
      (String letter_x (String (hex_digit (n / 16))
                     (String (hex_digit (n mod 16)) EmptyString)))
  else String c EmptyString.

Fixpoint holds (c : Ascii.ascii) (s : string) : bool :=
  match s with
  | EmptyString => false
  | String c' rest => Ascii.eqb c c' || holds c rest
  end.

Fixpoint escaped (quote : Ascii.ascii) (s : string) : string :=
  match s with
  | EmptyString => EmptyString
  | String c rest => repr_char quote c ++ escaped quote rest
  end.

Definition repr (s : string) : string :=
  let quote :=
    if holds single_quote s && negb (holds double_quote s)
    then double_quote else single_quote in
  String quote (escaped quote s ++ String quote EmptyString).

(** [str(e)].  A [KeyError] prints the [repr] of its key; an [HTTPException]
    prints as starlette does, status code, colon, detail. *)
Definition str_exn (e : exn) : string :=
  match e with
  | KeyError key => repr key
  | ValueError msg => msg
  | TypeError msg => msg
  | HTTPException status_code detail => str_int status_code ++ ": " ++ detail
  | RequestError msg => msg
  | OtherException msg => msg
  end.

(** The result of evaluating a call: it returns or it raises. *)
Inductive outcome (A : Type) : Type :=
| Return (a : A)
| Raise (e : exn).
Arguments Return {A} a.
Arguments Raise {A} e.

(** Outbound calls, in the order they are issued. *)
Inductive event : Type :=
| HttpxPost (url : string) (body : json)
| RequestsPost (url : string) (body : json)
| CurlPost (url : string) (body : json)
| FlyhubFetch (payload : json) (page size : Z).

(** A computation that issues outbound calls and then returns or raises. *)
Definition io (A : Type) : Type := (list event * outcome A)%type.

Definition ret {A} (a : A) : io A := ([], Return a).
Definition raise {A} (e : exn) : io A := ([], Raise e).
Definition emit (ev : event) : io unit := ([ev], Return tt).
Definition lift {A} (o : outcome A) : io A := ([], o).

Definition bind {A B} (m : io A) (k : A -> io B) : io B :=
  match m with
  | (tr, Return a) => let (tr', r) := k a in ((tr ++ tr')%list, r)
  | (tr, Raise e) => (tr, Raise e)
  end.

(** [try: m  except Exception as e: h e] *)
Definition try_except {A} (m : io A) (h : exn -> io A) : io A :=
  match m with
  | (tr, Return a) => (tr, Return a)
  | (tr, Raise e) => let (tr', r) := h e in ((tr ++ tr')%list, r)
  end.

Definition trace_of {A} (m : io A) : list event := fst m.
Definition result_of {A} (m : io A) : outcome A := snd m.

(** Index adjustment of a slice bound, as [PySlice_AdjustIndices] does for
    step 1: a negative bound counts from the end, then both are clamped to
    [0 .. len]. *)
Definition adjust_index (i len : Z) : Z :=
  if i <? 0 then Z.max (i + len) 0 else Z.min i len.

(** [l[start:stop]] *)
Definition slice {A} (l : list A) (start stop : Z) : list A :=
  let len := Z.of_nat (List.length l) in
  let lo := adjust_index start len in
  let hi := adjust_index stop len in
  firstn (Z.to_nat (hi - lo)) (skipn (Z.to_nat lo) l).

(** The first keyword of a call that names no parameter of the callee:
    binding such a call raises [TypeError] before the body runs (for an
    [async def], before the coroutine object is created). *)
Definition unexpected_keyword (params kwargs : list string) : option string :=
  find (fun k => negb (existsb (String.eqb k) params)) kwargs.

End Py.
Import Py.

Notation "x <- m ;; k" := (bind m (fun x => k))
  (at level 61, m at next level, right associativity).
Notation "m ;;; k" := (bind m (fun _ => k))
  (at level 61, right associativity).

(* ------------------------------------------------------------------ *)
(** ** What the network answers *)

Module Net.

(** [response.json()]: the body parsed, or the decoder's complaint. *)
Inductive decoded : Type :=
| Decoded (j : json)
| Undecodable (why : string).

(** The answer to one POST: a response with its status, text and parsed
    body, or a transport-level failure (refused, timed out, DNS). *)
Inductive http_reply : Type :=
| Response (status_code : Z) (text : string) (body : decoded)
| TransportFailure (msg : string).

(** The answer of [subprocess.run(["curl", ...], capture_output=True)]. *)
Inductive curl_reply : Type :=
| Completed (returncode : Z) (stdout stderr : string) (parsed : decoded)
| SpawnFailure (msg : string).

End Net.
Import Net.

(* ------------------------------------------------------------------ *)
(** ** clients/bdfare_client.py *)

Module BdfareClient.
Section Client.

(** Module constants and the request adapter
    ([adapters/bdfare_adapter.py], not part of the sources). *)
Variable BDFARE_BASE_URL : string.
Variable convert_to_bdfare_request : json -> outcome json.

(** The supplier as seen through each HTTP library. *)
Variable httpx_post : string -> json -> http_reply.
Variable requests_post : string -> json -> http_reply.

(** Whether [requests] raises its own [JSONDecodeError], a
    [RequestException], from [response.json()] (releases from 2.27 on) or
    the plain [json.JSONDecodeError] (earlier ones). *)
Variable requests_json_error_is_request_exception : bool.

(** [fallback_to_requests(url, payload)] *)
Definition fallback_to_requests (url : string) (payload : json) : io json :=
  emit (RequestsPost url payload) ;;;
  match requests_post url payload with
  | TransportFailure msg =>
      raise (HTTPException 500
               ("Network or request error during API call: " ++ msg))
  | Response status_code text body =>
      if (400 <=? status_code) && (status_code <? 600) then
        raise (HTTPException status_code ("HTTP request failed: " ++ text))
      else
        match body with
        | Decoded j => ret j
        | Undecodable why =>
            if requests_json_error_is_request_exception then
              raise (HTTPException 500
                       ("Network or request error during API call: " ++ why))
            else
              raise (HTTPException 500 ("JSON decoding failed: " ++ why))
        end
  end.

(** The [try] block of [fetch_bdfare_flights]: the attempt through httpx. *)
Definition httpx_attempt (url : string) (payload : json) : io json :=
  emit (HttpxPost url payload) ;;;
  match httpx_post url payload with
  | TransportFailure msg => raise (RequestError msg)
  | Response status_code text body =>
      if status_code =? 200 then
        match body with
        | Decoded j => ret j
        | Undecodable why => raise (ValueError why)
        end
      else
        raise (HTTPException status_code ("BDFare API Error: " ++ text))
  end.

(** [fetch_bdfare_flights(payload)] *)
Definition fetch_bdfare_flights (payload : json) : io json :=
  transformed_payload <- lift (convert_to_bdfare_request payload) ;;
  let url := BDFARE_BASE_URL ++ "/AirShopping" in
  try_except (httpx_attempt url transformed_payload)
             (fun _ => fallback_to_requests url transformed_payload).

(** The parameters of [fetch_bdfare_flights]. *)
Definition fetch_bdfare_flights_params : list string := ["payload"].

(** A call [fetch_bdfare_flights(arg, **kwargs)]: the arguments are bound
    first; the coroutine it returns is the body, not yet run. *)
Definition call_fetch_bdfare_flights (arg : json) (kwargs : list (string * Z))
  : outcome (io json) :=
  match unexpected_keyword fetch_bdfare_flights_params (map fst kwargs) with
  | Some k =>
      Raise (TypeError ("fetch_bdfare_flights() got an unexpected keyword argument '"
                          ++ k ++ "'"))
  | None => Return (fetch_bdfare_flights arg)
  end.

End Client.
End BdfareClient.

(* ------------------------------------------------------------------ *)
(** ** routes/bdfare/search.py *)

Module BdfareRoute.
Section Route.

Variable BDFARE_BASE_URL : option string.
Variable BDFARE_API_KEY : option string.
Variable httpx_post : string -> json -> http_reply.
Variable curl : string -> json -> curl_reply.

(** [AirShoppingResponse(success=True, data=...)]: [data] is declared
    [Dict[str, Any]], so anything but an object fails validation; pydantic's
    [ValidationError] is a [ValueError]. *)
Record AirShoppingResponse : Type :=
  { success : bool; data : list (string * json) }.

Definition make_response (d : json) : outcome AirShoppingResponse :=
  match d with
  | JObj fields => Return {| success := true; data := fields |}
  | _ => Raise (ValueError "1 validation error for AirShoppingResponse")
  end.

(** The fallback of [search_flights]: the same POST through the curl
    binary. *)
Definition curl_fallback (url : string) (payload : json)
  : io AirShoppingResponse :=
  emit (CurlPost url payload) ;;;
  let unexpected (e : exn) : io AirShoppingResponse :=
    raise (HTTPException 500
             ("Unexpected error occurred using curl: " ++ str_exn e)) in
  match curl url payload with
  | SpawnFailure msg => unexpected (OtherException msg)
  | Completed returncode stdout stderr parsed =>
      if negb (returncode =? 0) then
        unexpected (HTTPException 500 ("Curl command failed: " ++ stderr))
      else
        match parsed with
        | Undecodable _ =>
            raise (HTTPException 500
                     ("Failed to decode JSON response: " ++ stdout))
        | Decoded j =>
            match make_response j with
            | Return r => ret r
            | Raise e => unexpected e
            end
        end
  end.

(** [search_flights(payload)] *)
Definition search_flights (payload : json) : io AirShoppingResponse :=
  if negb (truthy_str BDFARE_BASE_URL) then
    raise (HTTPException 500 "BDFare Base URL is not configured.")
  else if negb (truthy_str BDFARE_API_KEY) then
    raise (HTTPException 500 "BDFare API key is not configured.")
  else
    let url := str_opt BDFARE_BASE_URL ++ "/AirShopping" in
    emit (HttpxPost url payload) ;;;
    match httpx_post url payload with
    | TransportFailure _ => curl_fallback url payload
    | Response status_code text body =>
        if status_code =? 200 then
          match body with
          | Decoded j => lift (make_response j)
          | Undecodable why => raise (ValueError why)
          end
        else
          raise (HTTPException status_code ("BDFare API error: " ++ text))
    end.

End Route.
End BdfareRoute.

(* ------------------------------------------------------------------ *)
(** ** routes/combined/combined_search.py: the FlyHub token cache *)

Module FlyhubRoute.

(** The module-level dict [cached_token].  A reading of the loop clock
    ([asyncio.get_event_loop().time()]) is a float, taken as the rational
    number of seconds it stands for. *)
Record cache : Type :=
  { token : json; expires_at : Q }.

(** Outbound calls of this module, in the order they are issued.  A search
    records the token it sends in its [Authorization] header. *)
Inductive call : Type :=
| Authenticate (url : string) (body : json)
| AirSearch (url : string) (bearer : json) (payload : json).

(** The process as the module sees it: the cache, the loop clock and the
    calls issued so far. *)
Record world : Type :=
  { cached_token : cache; now : Q; calls : list call }.

(** [cached_token = {"token": None, "expires_at": 0}] *)
Definition initial_cache : cache := {| token := JNull; expires_at := 0%Q |}.

(** [v[key]] on a parsed body: only an object with that key has it. *)
Definition subscript (v : json) (key : string) : outcome json :=
  match v with
  | JObj fields =>
      match lookup key fields with
      | Some x => Return x
      | None => Raise (KeyError key)
      end
  | _ => Raise (TypeError "object is not subscriptable by str")
  end.

(** The guard of [fetch_flyhub_flights]:
    [not cached_token["token"] or cached_token["expires_at"] <= time()]. *)
Definition needs_refresh (c : cache) (t : Q) : bool :=
  negb (truthy (token c)) || Qle_bool (expires_at c) t.

Definition issue (k : call) (w : world) : world :=
  {| cached_token := cached_token w; now := now w; calls := (calls w ++ [k])%list |}.

Definition advance (dt : Q) (w : world) : world :=
  {| cached_token := cached_token w; now := Qplus (now w) dt; calls := calls w |}.

Definition store (c : cache) (w : world) : world :=
  {| cached_token := c; now := now w; calls := calls w |}.

(** *** The arithmetic of the clock

    The clock is a binary64 float and so is the sum of line 67.  A float is
    a rational; a sum is the exact sum rounded to the nearest value with 53
    significant bits, ties to even.  The exponent range is not modelled:
    results lie between 2^-1022 and 2^1024, as the sum of a clock reading
    and 3600 does. *)

(** Whether [2^e <= n/d], for positive [n] and [d]. *)
Definition reaches_pow2 (e n d : Z) : bool :=
  if 0 <=? e then 2 ^ e * d <=? n else d <=? n * 2 ^ (- e).

(** [floor(log2(n/d))] *)
Definition exponent (n d : Z) : Z :=
  let e := Z.log2 n - Z.log2 d in
  if reaches_pow2 e n d then e else e - 1.

(** The integer nearest to [num/den], the even one of two equally near. *)
Definition nearest_even (num den : Z) : Z :=
  let k := num / den in
  let r := num mod den in
  if 2 * r <? den then k
  else if den <? 2 * r then k + 1
  else if Z.even k then k else k + 1.

(** The binary64 value nearest to [n/d]. *)
Definition nearest_binary64 (n d : positive) : Q :=
  let e := exponent (Z.pos n) (Z.pos d) in
  let up := Z.max (52 - e) 0 in
  let down := Z.max (e - 52) 0 in
  let m := nearest_even (Z.pos n * 2 ^ up) (Z.pos d * 2 ^ down) in
  (m * 2 ^ down) # Z.to_pos (2 ^ up).

Definition float_round (q : Q) : Q :=
  match Qnum q with
  | Z0 => q
  | Z.pos n => nearest_binary64 n (Qden q)
  | Z.neg n => Qopp (nearest_binary64 n (Qden q))
  end.

(** [x + y] on floats. *)
Definition float_add (x y : Q) : Q := float_round (Qplus x y).

(** Half the distance between 1 and the next float, 2^-53. *)
Definition unit_roundoff : Q := 1 # 9007199254740992.

Section Module_.

Variable FLYHUB_BASE_URL : string.
Variable FLYHUB_USERNAME : json.
Variable FLYHUB_API_KEY : json.

Definition authenticate_url : string := FLYHUB_BASE_URL ++ "Authenticate".
Definition search_url : string := FLYHUB_BASE_URL ++ "AirSearch".
Definition credentials : json :=
  JObj [("username", FLYHUB_USERNAME); ("apikey", FLYHUB_API_KEY)].

(** What [authenticate_flyhub] does once its POST has been answered. *)
Definition authenticate_resume (reply : http_reply) (w : world)
  : world * outcome unit :=
  match reply with
  | TransportFailure msg => (w, Raise (RequestError msg))
  | Response status_code text body =>
      if status_code =? 200 then
        match body with
        | Undecodable why => (w, Raise (ValueError why))
        | Decoded token_data =>
            match subscript token_data "TokenId" with
            | Raise e => (w, Raise e)
            | Return tok =>
                (store {| token := tok;
                          expires_at := float_add (now w) (3600 # 1) |} w,
                 Return tt)
            end
        end
      else (w, Raise (HTTPException status_code "FlyHub Authentication Failed"))
  end.

(** What [fetch_flyhub_flights] does once its search POST has been
    answered. *)
Definition search_resume (reply : http_reply) : outcome json :=
  match reply with
  | TransportFailure msg => Raise (RequestError msg)
  | Response status_code text body =>
      if status_code =? 200 then
        match body with
        | Decoded j => Return j
        | Undecodable why => Raise (ValueError why)
        end
      else Raise (HTTPException status_code text)
  end.

(** The search POST, sent with the token the cache holds at that moment. *)
Definition send_search (payload : json) (w : world) : world :=
  issue (AirSearch search_url (token (cached_token w)) payload) w.

(** *** One caller at a time

    The supplier answers the authentication POST with [auth_reply] and the
    search POST with [search_reply]; each POST takes [rtt] seconds. *)
Section Sequential.

Variable auth_reply : http_reply.
Variable search_reply : http_reply.
Variable rtt : Q.

(** [authenticate_flyhub()] *)
Definition authenticate_flyhub (w : world) : world * outcome unit :=
  let w := issue (Authenticate authenticate_url credentials) w in
  let w := advance rtt w in
  authenticate_resume auth_reply w.

(** [fetch_flyhub_flights(payload)] *)
Definition fetch_flyhub_flights (payload : json) (w : world)
  : world * outcome json :=
  let search (w : world) :=
    let w := send_search payload w in
    let w := advance rtt w in
    (w, search_resume search_reply) in
  if needs_refresh (cached_token w) (now w) then
    match authenticate_flyhub w with
    | (w, Raise e) => (w, Raise e)
    | (w, Return _) => search w
    end
  else search w.

End Sequential.

(** *** Several callers on one event loop

    A caller is a coroutine; it is suspended exactly while one of its POSTs
    is in flight, and everything between two suspensions runs without
    interruption. *)
Inductive coroutine : Type :=
| Created (payload : json)
| AwaitingAuthenticate (payload : json)
| AwaitingSearch
| Finished (result : outcome json).

(** A caller runs from its creation to its first POST. *)
Definition start (payload : json) (w : world) : world * coroutine :=
  if needs_refresh (cached_token w) (now w) then
    (issue (Authenticate authenticate_url credentials) w,
     AwaitingAuthenticate payload)
  else (send_search payload w, AwaitingSearch).

(** A suspended caller runs from the answer to its POST to its next POST
    or to its end. *)
Definition resume (reply : http_reply) (c : coroutine) (w : world)
  : world * coroutine :=
  match c with
  | AwaitingAuthenticate payload =>
      match authenticate_resume reply w with
      | (w, Raise e) => (w, Finished (Raise e))
      | (w, Return _) => (send_search payload w, AwaitingSearch)
      end
  | AwaitingSearch => (w, Finished (search_resume reply))
  | _ => (w, c)
  end.

(** What the event loop does next. *)
Inductive action : Type :=
| Begin (caller : nat)
| Deliver (caller : nat) (reply : http_reply)
| Elapse (dt : Q).

Fixpoint update {A} (i : nat) (x : A) (l : list A) : list A :=
  match l, i with
  | [], _ => []
  | _ :: rest, O => x :: rest
  | y :: rest, S i => y :: update i x rest
  end.

Definition loop : Type := (world * list coroutine)%type.

Definition step (a : action) (s : loop) : loop :=
  let (w, callers) := s in
  match a with
  | Elapse dt => (advance dt w, callers)
  | Begin i =>
      match nth_error callers i with
      | Some (Created payload) =>
          let (w', c') := start payload w in (w', update i c' callers)
      | _ => s
      end
  | Deliver i reply =>
      match nth_error callers i with
      | Some c => let (w', c') := resume reply c w in (w', update i c' callers)
      | None => s
      end
  end.

Definition run (schedule : list action) (s : loop) : loop :=
  fold_left (fun s a => step a s) schedule s.

(** The number of times [authenticate_flyhub] has been entered. *)
Definition authentications (l : list call) : nat :=
  List.length (filter (fun k => match k with Authenticate _ _ => true | _ => false end) l).

(** The tokens the searches were sent with. *)
Definition bearers (l : list call) : list json :=
  flat_map (fun k => match k with AirSearch _ b _ => [b] | _ => [] end) l.

End Module_.
End FlyhubRoute.

(* ------------------------------------------------------------------ *)
(** ** services/combined_service.py *)

Module CombinedService.

(** [payload.dict()]: the three keys the service reads.  A key that is
    absent or [None] reads as [None] through [.get]. *)
Record SearchPayload : Type :=
  { source : option string; pointOfSale : option string; request : json }.

(** The dict [combined_search] returns. *)
Record SearchResult : Type :=
  { page : Z; size : Z; total_flights : Z; flights : list json }.

(** Lines 108-120: count, slice and build the returned dict. *)
Definition paginate (all_flights : list json) (page size : Z) : SearchResult :=
  let total_flights := Z.of_nat (List.length all_flights) in
  let start := (page - 1) * size in
  let end_ := start + size in
  {| page := page; size := size; total_flights := total_flights;
     flights := slice all_flights start end_ |}.

(** The [except] clauses of [combined_search], in their order. *)
Definition handle (e : exn) : exn :=
  match e with
  | KeyError _ => HTTPException 422 ("Missing key in payload: " ++ str_exn e)
  | ValueError _ => HTTPException 422 ("Validation Error: " ++ str_exn e)
  | HTTPException _ _ => e
  | _ => HTTPException 500 ("An unexpected error occurred: " ++ str_exn e)
  end.

(** What [asyncio.gather(..., return_exceptions=True)] hands back for one
    task, after [combined_search] has replaced an exception by [None]. *)
Definition contained (r : outcome json) : json :=
  match r with
  | Return j => j
  | Raise _ => JNull
  end.

(** Await a coroutine with [return_exceptions=True]: its calls happen, its
    exception becomes a value. *)
Definition gathered (task : io json) : io json :=
  (trace_of task, Return (contained (result_of task))).

Section Service.

(** The BDFare client of [clients/bdfare_client.py], given as the
    outcome of binding a call's arguments. *)
Variable call_fetch_bdfare_flights : json -> list (string * Z) -> outcome (io json).

(** [clients/flyhub_client.py], [adapters/flyhub_adapter.py] and
    [adapters/combined_search.py] are not part of the sources.  The FlyHub
    client is taken as an [async def] of a payload, a page and a size, whose
    awaited outcome is [flyhub_answer]; the formatter's dict is taken by its
    ["Flights"] entry, a list when the key is there. *)
Variable flyhub_answer : json -> Z -> Z -> outcome json.
Variable convert_bdfare_to_flyhub : json -> outcome json.
Variable format_flight_data_with_ids : list (string * json) -> outcome (option (list json)).

Definition fetch_flyhub_flights (payload : json) (page size : Z) : io json :=
  emit (FlyhubFetch payload page size) ;;;
  lift (flyhub_answer payload page size).

(** [formatted_results.get("Flights", [])] *)
Definition get_flights (formatted_results : option (list json)) : list json :=
  match formatted_results with
  | Some l => l
  | None => []
  end.

(** Lines 51-103: dispatch on [source] and fill [raw_results]. *)
Definition fetch_raw_results (src : string) (enriched_request_data request_data : json)
           (page size : Z) : io (list (string * json)) :=
  if (src =? "bdfare")%string then
    task <- lift (call_fetch_bdfare_flights enriched_request_data
                    [("page", page); ("size", size)]) ;;
    r <- task ;;
    ret [("bdfare", r)]
  else if (src =? "flyhub")%string then
    flyhub_payload <- lift (convert_bdfare_to_flyhub request_data) ;;
    r <- fetch_flyhub_flights flyhub_payload page size ;;
    ret [("flyhub", r)]
  else if (src =? "all")%string then
    flyhub_payload <- lift (convert_bdfare_to_flyhub request_data) ;;
    bdfare_task <- lift (call_fetch_bdfare_flights enriched_request_data
                           [("page", page); ("size", size)]) ;;
    let flyhub_task := fetch_flyhub_flights flyhub_payload page size in
    bdfare_response <- gathered bdfare_task ;;
    flyhub_response <- gathered flyhub_task ;;
    ret [("bdfare", bdfare_response); ("flyhub", flyhub_response)]
  else
    raise (ValueError ("Invalid source specified: " ++ src)).

(** Lines 28-106 and the reads of lines 109 and 112: validate the keys,
    fetch, format, and take the formatted list of offers. *)
Definition merged_flights (payload : SearchPayload) (page size : Z)
  : io (list json) :=
  let point_of_sale := pointOfSale payload in
  let source := source payload in
  let request_data := request payload in
  if negb (truthy_str source) then
    raise (ValueError "The 'source' key is missing in the payload.")
  else if negb (truthy_str point_of_sale) then
    raise (ValueError "The 'pointOfSale' key is missing in the payload.")
  else if negb (truthy request_data) then
    raise (ValueError "The 'request' key is missing in the payload.")
  else
    let enriched_request_data :=
      JObj [("pointOfSale", JStr (str_opt point_of_sale));
            ("request", request_data)] in
    raw_results <- fetch_raw_results (str_opt source) enriched_request_data
                     request_data page size ;;
    formatted_results <- lift (format_flight_data_with_ids raw_results) ;;
    ret (get_flights formatted_results).

(** The [try] block of [combined_search]. *)
Definition combined_search_body (payload : SearchPayload) (page size : Z)
  : io SearchResult :=
  all_flights <- merged_flights payload page size ;;
  ret (paginate all_flights page size).

(** [combined_search(payload, page, size)]: every exception leaves as an
    [HTTPException]. *)
Definition combined_search (payload : SearchPayload) (page size : Z)
  : io SearchResult :=
  try_except (combined_search_body payload page size)
             (fun e => raise (handle e)).

End Service.

(** The status FastAPI answers with: 200 for a returned dict, the
    exception's status otherwise (500 for anything but an [HTTPException]). *)
Definition http_status (r : outcome SearchResult) : Z :=
  match r with
  | Return _ => 200
  | Raise (HTTPException status_code _) => status_code
  | Raise _ => 500
  end.

End CombinedService.

(* ------------------------------------------------------------------ *)
(** ** The service with the BDFare client it imports *)

Module App.

(** Everything outside the four files: configuration, the adapters, the
    FlyHub client and the suppliers' answers. *)
Record environment : Type :=
  { BDFARE_BASE_URL : string;
    convert_to_bdfare_request : json -> outcome json;
    httpx_post : string -> json -> http_reply;
    requests_post : string -> json -> http_reply;
    requests_json_error_is_request_exception : bool;
    flyhub_answer : json -> Z -> Z -> outcome json;
    convert_bdfare_to_flyhub : json -> outcome json;
    format_flight_data_with_ids : list (string * json) -> outcome (option (list json)) }.

Definition fetch_bdfare_flights (E : environment) : json -> io json :=
  BdfareClient.fetch_bdfare_flights
    (BDFARE_BASE_URL E) (convert_to_bdfare_request E) (httpx_post E)
    (requests_post E) (requests_json_error_is_request_exception E).

Definition call_fetch_bdfare_flights (E : environment)
  : json -> list (string * Z) -> outcome (io json) :=
  BdfareClient.call_fetch_bdfare_flights
    (BDFARE_BASE_URL E) (convert_to_bdfare_request E) (httpx_post E)
    (requests_post E) (requests_json_error_is_request_exception E).

Definition merged_flights (E : environment)
  : CombinedService.SearchPayload -> Z -> Z -> io (list json) :=
  CombinedService.merged_flights
    (call_fetch_bdfare_flights E) (flyhub_answer E)
    (convert_bdfare_to_flyhub E) (format_flight_data_with_ids E).

Definition combined_search (E : environment)
  : CombinedService.SearchPayload -> Z -> Z -> io CombinedService.SearchResult :=
  CombinedService.combined_search
    (call_fetch_bdfare_flights E) (flyhub_answer E)
    (convert_bdfare_to_flyhub E) (format_flight_data_with_ids E).

End App.

(* ------------------------------------------------------------------ *)
(** ** Concrete requests and suppliers *)

Module Examples.
Import CombinedService.

Definition offer (id supplier : string) : json :=
  JObj [("offerId", JStr id); ("sourceSupplier", JStr supplier)].

Definition flyhub_offers : list json :=
  [offer "fh-1" "flyhub"; offer "fh-2" "flyhub"; offer "fh-3" "flyhub";
   offer "fh-4" "flyhub"; offer "fh-5" "flyhub"].

Definition search_request : json :=
  JObj [("originDest",
         JArr [JObj [("originDepRequest",
                      JObj [("iatA_LocationCode", JStr "JSR");
                            ("date", JStr "2024-12-15")]);
                     ("destArrivalRequest",
                      JObj [("iatA_LocationCode", JStr "DAC")])]]);
        ("pax", JArr [JObj [("paxID", JStr "PAX1"); ("ptc", JStr "ADT")]])].

Definition flyhub_request : json :=
  JObj [("AdultQuantity", JNum 1); ("JourneyType", JStr "1")].

Definition request_to (src : string) : SearchPayload :=
  {| source := Some src; pointOfSale := Some "BD"; request := search_request |}.

(** A request that names an unknown supplier and has no point of sale. *)
Definition xyz_without_point_of_sale : SearchPayload :=
  {| source := Some "xyz"; pointOfSale := None; request := search_request |}.

(** A formatter that concatenates what each supplier returned under
    ["Results"], in the order of [raw_results]. *)
Definition results_of (raw : json) : list json :=
  match raw with
  | JObj fields =>
      match lookup "Results" fields with
      | Some (JArr l) => l
      | _ => []
      end
  | _ => []
  end.

Definition concat_results (raw_results : list (string * json))
  : outcome (option (list json)) :=
  Return (Some (flat_map (fun kv => results_of (snd kv)) raw_results)).

(** BDFare is unreachable through either library; FlyHub answers with five
    offers. *)
Definition flyhub_up_bdfare_down : App.environment :=
  {| App.BDFARE_BASE_URL := "https://bdfare.example/api";
     App.convert_to_bdfare_request := fun p => Return p;
     App.httpx_post := fun _ _ => TransportFailure "connection refused";
     App.requests_post := fun _ _ => TransportFailure "connection refused";
     App.requests_json_error_is_request_exception := true;
     App.flyhub_answer := fun _ _ _ => Return (JObj [("Results", JArr flyhub_offers)]);
     App.convert_bdfare_to_flyhub := fun _ => Return flyhub_request;
     App.format_flight_data_with_ids := concat_results |}.

(** FlyHub answers with a body that is not JSON; BDFare with a 503. *)
Definition all_suppliers_down : App.environment :=
  {| App.BDFARE_BASE_URL := "https://bdfare.example/api";
     App.convert_to_bdfare_request := fun p => Return p;
     App.httpx_post := fun _ _ => Response 503 "unavailable" (Undecodable "Expecting value");
     App.requests_post := fun _ _ => Response 503 "unavailable" (Undecodable "Expecting value");
     App.requests_json_error_is_request_exception := true;
     App.flyhub_answer := fun _ _ _ => Raise (ValueError "Expecting value: line 1 column 1 (char 0)");
     App.convert_bdfare_to_flyhub := fun _ => Return flyhub_request;
     App.format_flight_data_with_ids := concat_results |}.

End Examples.

(** The FlyHub route: replies, a cold and an expired cache, two callers on
    one loop. *)
Module FlyhubExamples.
Import FlyhubRoute.

Definition base_url : string := "https://flyhub.example/api/".
Definition username : json := JStr "agent".
Definition api_key : json := JStr "secret".

Definition token_reply (tok : string) : http_reply :=
  Response 200 "" (Decoded (JObj [("TokenId", JStr tok)])).

Definition flights_reply : http_reply :=
  Response 200 "" (Decoded (JObj [("Results", JArr [])])).

(** A process that has just started: nothing cached, 100 s on the clock. *)
Definition cold : world :=
  {| cached_token := initial_cache; now := 100 # 1; calls := [] |}.

(** A token that ran out at 50 s, seen at 100 s. *)
Definition expired : world :=
  {| cached_token := {| token := JStr "old"; expires_at := 50 # 1 |};
     now := 100 # 1; calls := [] |}.

(** A token good until 3700 s, seen at 100 s. *)
Definition fresh : world :=
  {| cached_token := {| token := JStr "tok-0"; expires_at := 3700 # 1 |};
     now := 100 # 1; calls := [] |}.

Definition two_callers : list coroutine :=
  [Created Examples.flyhub_request; Created Examples.flyhub_request].

(** Both callers are started (as [asyncio.gather] does) before the supplier
    has answered either of them. *)
Definition both_start_then_replies : list action :=
  [Begin 0; Begin 1; Elapse (1 # 2);
   Deliver 0 (token_reply "tok-A"); Deliver 1 (token_reply "tok-B");
   Elapse (1 # 2);
   Deliver 0 flights_reply; Deliver 1 flights_reply].

End FlyhubExamples.

(* ------------------------------------------------------------------ *)
(** ** Vocabulary of the specification *)

Module Spec.

(** [needle in hay] *)
Fixpoint contains (needle hay : string) : bool :=
  prefix needle hay ||
  match hay with
  | EmptyString => false
  | String _ rest => contains needle rest
  end.

(** The error the specification calls [AllSuppliersFailedError] leaves the
    service as HTTP 502 or 500. *)
Definition all_suppliers_failed_status (e : exn) : bool :=
  match e with
  | HTTPException status_code _ => (status_code =? 502) || (status_code =? 500)
  | _ => false
  end.

(** The keys [combined_search] finds missing, in the order it looks. *)
Definition missing_keys (payload : CombinedService.SearchPayload) : list string :=
  (if truthy_str (CombinedService.source payload) then [] else ["source"])
  ++ (if truthy_str (CombinedService.pointOfSale payload) then [] else ["pointOfSale"])
  ++ (if truthy (CombinedService.request payload) then [] else ["request"]).

(** The suppliers a request may name. *)
Definition known_source (src : string) : bool :=
  (src =? "bdfare")%string || (src =? "flyhub")%string || (src =? "all")%string.

(** One refresh for all callers: [authenticate_flyhub] entered once, and
    every search sent with one and the same token. *)
Definition single_refresh (l : list FlyhubRoute.call) : Prop :=
  FlyhubRoute.authentications l = 1%nat
  /\ exists tok, forall b, In b (FlyhubRoute.bearers l) -> b = tok.

(** The number of outbound calls of one invocation. *)
Definition outbound_calls {A} (m : io A) : nat := List.length (trace_of m).

End Spec.

(* ------------------------------------------------------------------ *)
(** ** routes/combined/combined_search.py: the request adapter and the route *)

Module CombinedRoute.

(** Sequencing of calls that may raise. *)
Definition and_then {A B} (m : outcome A) (k : A -> outcome B) : outcome B :=
  match m with
  | Return a => k a
  | Raise e => Raise e
  end.

Notation "'get' x ':=' m 'in' k" := (and_then m (fun x => k))
  (at level 10, x name, m at level 100, k at level 200).

(** [c.lower()] on one byte.  Strings are byte strings here; only the
    letters A-Z change, which is what [str.lower] does to every string
    whose lowered form is compared with an ASCII word without a "k". *)
Definition lower_ascii (c : Ascii.ascii) : Ascii.ascii :=
  let n := Ascii.nat_of_ascii c in
  if ((65 <=? n) && (n <=? 90))%nat then Ascii.ascii_of_nat (n + 32) else c.

(** [s.lower()] *)
Fixpoint lower (s : string) : string :=
  match s with
  | EmptyString => EmptyString
  | String c rest => String (lower_ascii c) (lower rest)
  end.

(** [v.lower()]: only a [str] has the method. *)
Definition lower_of (v : json) : outcome string :=
  match v with
  | JStr s => Return (lower s)
  | _ => Raise (OtherException "AttributeError: object has no attribute 'lower'")
  end.

(** [v == s] for a string literal [s]. *)
Definition equals_str (v : json) (s : string) : bool :=
  match v with
  | JStr t => (t =? s)%string
  | _ => false
  end.

(** [for x in v]: a list yields its items, a dict its keys, a string its
    characters; nothing else can be iterated. *)
Fixpoint characters (s : string) : list json :=
  match s with
  | EmptyString => []
  | String c rest => JStr (String c EmptyString) :: characters rest
  end.

Definition iterate (v : json) : outcome (list json) :=
  match v with
  | JArr items => Return items
  | JObj fields => Return (map (fun kv => JStr (fst kv)) fields)
  | JStr s => Return (characters s)
  | _ => Raise (TypeError "object is not iterable")
  end.

Definition getitem := FlyhubRoute.subscript.

(** [sum(1 for pax in paxes if pax["ptc"] == code)] *)
Fixpoint count_ptc (code : string) (paxes : list json) : outcome Z :=
  match paxes with
  | [] => Return 0
  | pax :: rest =>
      get ptc := getitem pax "ptc" in
      get n := count_ptc code rest in
      Return ((if equals_str ptc code then 1 else 0) + n)
  end.

(** ["1" if v.lower() == word else "2"] *)
Definition one_if_lower_is (word : string) (v : json) : outcome json :=
  get s := lower_of v in
  Return (JStr (if (s =? word)%string then "1" else "2")).

(** One element of the ["Segments"] comprehension. *)
Definition convert_segment (payload segment : json) : outcome json :=
  get dep := getitem segment "originDepRequest" in
  get origin := getitem dep "iatA_LocationCode" in
  get arr := getitem segment "destArrivalRequest" in
  get destination := getitem arr "iatA_LocationCode" in
  get request := getitem payload "request" in
  get criteria := getitem request "shoppingCriteria" in
  get preferences := getitem criteria "travelPreferences" in
  get cabin := getitem preferences "cabinCode" in
  get cabin_class := one_if_lower_is "economy" cabin in
  get dep' := getitem segment "originDepRequest" in
  get date := getitem dep' "date" in
  Return (JObj [("Origin", origin); ("Destination", destination);
                ("CabinClass", cabin_class); ("DepartureDateTime", date)]).

Fixpoint convert_segments (payload : json) (segments : list json)
  : outcome (list json) :=
  match segments with
  | [] => Return []
  | segment :: rest =>
      get s := convert_segment payload segment in
      get ss := convert_segments payload rest in
      Return (s :: ss)
  end.

(** The pax of a payload, as each of the three sums reads them. *)
Definition pax_of (payload : json) : outcome (list json) :=
  get request := getitem payload "request" in
  get pax := getitem request "pax" in
  iterate pax.

(** [convert_bdfare_to_flyhub(payload)]: the entries of the dict literal are
    evaluated in the order they are written. *)
Definition convert_bdfare_to_flyhub (payload : json) : outcome json :=
  get paxes := pax_of payload in
  get adults := count_ptc "ADT" paxes in
  get paxes := pax_of payload in
  get children := count_ptc "CHD" paxes in
  get paxes := pax_of payload in
  get infants := count_ptc "INF" paxes in
  get request := getitem payload "request" in
  get criteria := getitem request "shoppingCriteria" in
  get trip_type := getitem criteria "tripType" in
  get journey_type := one_if_lower_is "oneway" trip_type in
  get request := getitem payload "request" in
  get origin_dest := getitem request "originDest" in
  get segments := iterate origin_dest in
  get converted := convert_segments payload segments in
  Return (JObj [("AdultQuantity", JNum adults);
                ("ChildQuantity", JNum children);
                ("InfantQuantity", JNum infants);
                ("EndUserIp", JStr "103.124.251.147");
                ("JourneyType", journey_type);
                ("Segments", JArr converted)]).

Section Route.

Variable BDFARE_BASE_URL : string.
Variable FLYHUB_BASE_URL : string.
Variables FLYHUB_USERNAME FLYHUB_API_KEY : json.

(** What the suppliers answer to this request, how long a POST takes, and,
    when both fetches fail, whether BDFare's failure comes first. *)
Variable bdfare_reply : http_reply.
Variables auth_reply search_reply : http_reply.
Variable rtt : Q.
Variable bdfare_fails_first : bool.

(** [fetch_bdfare_flights(payload)] of this module. *)
Definition fetch_bdfare_flights (payload : json) : io json :=
  let url := BDFARE_BASE_URL ++ "/AirShopping" in
  emit (HttpxPost url payload) ;;;
  match bdfare_reply with
  | TransportFailure msg => raise (RequestError msg)
  | Response status_code text body =>
      if status_code =? 200 then
        match body with
        | Decoded j => ret j
        | Undecodable why => raise (ValueError why)
        end
      else raise (HTTPException status_code text)
  end.

(** [await asyncio.gather(a, b)]: both results, or the exception raised
    first; the other task is left to finish. *)
Definition gather (a b : outcome json) : outcome (json * json) :=
  match a, b with
  | Return x, Return y => Return (x, y)
  | Raise e, Return _ => Raise e
  | Return _, Raise e => Raise e
  | Raise ea, Raise eb => Raise (if bdfare_fails_first then ea else eb)
  end.

(** [combined_search(payload)], the route: the BDFare requests sent, the
    process as FlyHub's fetch leaves it, and the response. *)
Definition combined_search (payload : json) (w : FlyhubRoute.world)
  : list event * FlyhubRoute.world * outcome json :=
  match convert_bdfare_to_flyhub payload with
  | Raise e => ([], w, Raise e)
  | Return flyhub_payload =>
      let (sent, bdfare_response) := fetch_bdfare_flights payload in
      let (w', flyhub_response) :=
        FlyhubRoute.fetch_flyhub_flights FLYHUB_BASE_URL FLYHUB_USERNAME
          FLYHUB_API_KEY auth_reply search_reply rtt flyhub_payload w in
      (sent, w',
       match gather bdfare_response flyhub_response with
       | Return (b, f) => Return (JObj [("bdfare", b); ("flyhub", f)])
       | Raise e => Raise (HTTPException 500 (str_exn e))
       end)
  end.

End Route.
End CombinedRoute.

(* ------------------------------------------------------------------ *)
(** ** clients/bdfare_client.py: the order functions *)

Module BdfareOrders.

(** How a POST through httpx can fail in transport: a read timeout, or any
    other [httpx.RequestError]. *)
Inductive transport_kind : Type :=
| ReadTimeout
| OtherRequestError.

Inductive httpx_reply : Type :=
| Answered (status_code : Z) (text : string) (body : decoded)
| Failed (kind : transport_kind) (msg : string).

(** What the [try] block shared by the six functions can raise. *)
Inductive attempt_error : Type :=
| StatusError (status_code : Z) (text : string) (message : string)
| TransportError (kind : transport_kind) (msg : string)
| DecodeError (msg : string).

(** [str(e)] *)
Definition str_error (e : attempt_error) : string :=
  match e with
  | StatusError _ _ message => message
  | TransportError _ msg => msg
  | DecodeError msg => msg
  end.

Section Client.

Variable BDFARE_BASE_URL : string.
Variable httpx_post : string -> json -> httpx_reply.

(** Whether [raise_for_status] raises for every status outside 200-299 (as
    current httpx does) or for 400-599 only (as older releases did), and
    what an [HTTPStatusError] for a url and a status prints as. *)
Variable raises_outside_2xx : bool.
Variable status_error_text : string -> Z -> string.

Definition raises_for_status (status_code : Z) : bool :=
  if raises_outside_2xx
  then negb ((200 <=? status_code) && (status_code <? 300))
  else (400 <=? status_code) && (status_code <? 600).

(** The [try] block: POST, [raise_for_status()], [response.json()]. *)
Definition post_and_decode (url : string) (payload : json)
  : list event * (attempt_error + json) :=
  ([HttpxPost url payload],
   match httpx_post url payload with
   | Failed kind msg => inl (TransportError kind msg)
   | Answered status_code text body =>
       if raises_for_status status_code then
         inl (StatusError status_code text (status_error_text url status_code))
       else
         match body with
         | Decoded j => inr j
         | Undecodable why => inl (DecodeError why)
         end
   end).

(** Run the [try] block and map what it raises. *)
Definition guarded (url : string) (payload : json)
           (handler : attempt_error -> exn) : io json :=
  let (sent, r) := post_and_decode url payload in
  (sent, match r with
         | inr j => Return j
         | inl e => Raise (handler e)
         end).

(** [fetch_bdfare_ticket_cancel(payload)] *)
Definition fetch_bdfare_ticket_cancel (payload : json) : io json :=
  guarded (BDFARE_BASE_URL ++ "/OrderCancel") payload
    (fun e => HTTPException 500
                ("Error in BDFare Ticket Cancel: " ++ str_error e)).

(** [fetch_bdfare_ticket_issue(payload)] *)
Definition fetch_bdfare_ticket_issue (payload : json) : io json :=
  guarded (BDFARE_BASE_URL ++ "/OrderChange") payload
    (fun e => HTTPException 500
                ("Error in BDFare Ticket Issue: " ++ str_error e)).

(** [fetch_bdfare_airretrieve(payload)] *)
Definition fetch_bdfare_airretrieve (payload : json) : io json :=
  guarded (BDFARE_BASE_URL ++ "/OrderRetrieve") payload
    (fun e =>
       match e with
       | StatusError status_code text _ =>
           HTTPException status_code ("BDFare API returned error: " ++ text)
       | _ => HTTPException 500
                ("Unexpected error fetching BDFare AirRetrieve: " ++ str_error e)
       end).

(** The body [fetch_bdfare_airbook] and [fetch_bdfare_airprebook] send. *)
Definition order_payload (trace_id : string) (offer_ids : list string)
           (request : json) : json :=
  JObj [("traceId", JStr trace_id);
        ("offerId", JArr (map JStr offer_ids));
        ("request", request)].

(** [fetch_bdfare_airbook(trace_id, offer_ids, request)] *)
Definition fetch_bdfare_airbook (trace_id : string) (offer_ids : list string)
           (request : json) : io json :=
  guarded (BDFARE_BASE_URL ++ "/OrderCreate")
    (order_payload trace_id offer_ids request)
    (fun e =>
       match e with
       | StatusError status_code text _ =>
           let error_message :=
             if (text =? "")%string then "No error details provided" else text in
           HTTPException status_code
             ("BDFare API returned error: " ++ error_message)
       | _ => HTTPException 500
                ("Unexpected error fetching BDFare AirBook: " ++ str_error e)
       end).

(** [fetch_bdfare_airprebook(trace_id, offer_ids, request)] *)
Definition fetch_bdfare_airprebook (trace_id : string) (offer_ids : list string)
           (request : json) : io json :=
  guarded (BDFARE_BASE_URL ++ "/OrderSell")
    (order_payload trace_id offer_ids request)
    (fun e =>
       match e with
       | StatusError status_code text _ =>
           HTTPException status_code ("BDFare API returned error: " ++ text)
       | _ => HTTPException 500
                ("Unexpected error fetching BDFare AirPrebook: " ++ str_error e)
       end).

(** [fetch_bdfare_airprice(trace_id, offer_ids)]: its three [except]
    clauses name httpx exceptions only, so a body that does not decode
    leaves as the decoder's [ValueError]. *)
Definition fetch_bdfare_airprice (trace_id : string) (offer_ids : list string)
  : io json :=
  guarded (BDFARE_BASE_URL ++ "/OfferPrice")
    (JObj [("traceId", JStr trace_id); ("offerId", JArr (map JStr offer_ids))])
    (fun e =>
       match e with
       | TransportError ReadTimeout _ =>
           HTTPException 500 "The BDFare API request timed out."
       | TransportError OtherRequestError msg =>
           HTTPException 500
             ("An error occurred while contacting BDFare API: " ++ msg)
       | StatusError status_code text _ =>
           HTTPException status_code ("BDFare API Error: " ++ text)
       | DecodeError msg => ValueError msg
       end).

End Client.
End BdfareOrders.

(** Vocabulary for the request adapter and requests to try it on. *)
Module RouteExamples.
Import CombinedRoute.

(** Whether a pax carries the passenger type [code]. *)
Definition has_ptc (code : string) (pax : json) : bool :=
  match getitem pax "ptc" with
  | Return v => equals_str v code
  | Raise _ => false
  end.

(** Whether a pax is an adult, a child or an infant. *)
Definition known_ptc (pax : json) : bool :=
  has_ptc "ADT" pax || has_ptc "CHD" pax || has_ptc "INF" pax.

(** The segments of a payload, as the comprehension reads them. *)
Definition origin_dest_of (payload : json) : outcome (list json) :=
  get request := getitem payload "request" in
  get origin_dest := getitem request "originDest" in
  iterate origin_dest.

Definition leg (origin destination date : string) : json :=
  JObj [("originDepRequest",
         JObj [("iatA_LocationCode", JStr origin); ("date", JStr date)]);
        ("destArrivalRequest", JObj [("iatA_LocationCode", JStr destination)])].

Definition passenger (id ptc : string) : json :=
  JObj [("paxID", JStr id); ("ptc", JStr ptc)].

(** Two adults, a child and a passenger of a type FlyHub has no count for,
    one way from Jessore to Dhaka and on to Chittagong. *)
Definition family_trip : json :=
  JObj [("pointOfSale", JStr "BD");
        ("request",
         JObj [("originDest",
                JArr [leg "JSR" "DAC" "2024-12-15"; leg "DAC" "CGP" "2024-12-16"]);
               ("pax",
                JArr [passenger "PAX1" "ADT"; passenger "PAX2" "ADT";
                      passenger "PAX3" "CHD"; passenger "PAX4" "YTH"]);
               ("shoppingCriteria",
                JObj [("tripType", JStr "Oneway");
                      ("travelPreferences",
                       JObj [("vendorPref", JArr []);
                             ("cabinCode", JStr "Economy")])])])].

(** A body without its ["request"]. *)
Definition no_request : json := JObj [("pointOfSale", JStr "BD")].

Definition not_found : http_reply := Response 404 "no such route" (Undecodable "").

Definition unauthorized : http_reply := Response 401 "bad key" (Undecodable "").

Definition created (j : json) : http_reply := Response 201 "" (Decoded j).

End RouteExamples.

(** Suppliers and adapters to try the remaining code on. *)
Module MoreExamples.

(** The FlyHub request adapter finds no shopping criteria. *)
Definition adapter_fails : App.environment :=
  {| App.BDFARE_BASE_URL := "https://bdfare.example/api";
     App.convert_to_bdfare_request := fun p => Return p;
     App.httpx_post := fun _ _ => TransportFailure "connection refused";
     App.requests_post := fun _ _ => TransportFailure "connection refused";
     App.requests_json_error_is_request_exception := true;
     App.flyhub_answer := fun _ _ _ => Return (JObj [("Results", JArr Examples.flyhub_offers)]);
     App.convert_bdfare_to_flyhub := fun _ => Raise (KeyError "shoppingCriteria");
     App.format_flight_data_with_ids := Examples.concat_results |}.

Definition shopping_result : json := JObj [("offersGroup", JArr [])].

(** BDFare answers every search with 201 and a result. *)
Definition bdfare_answers_201 : App.environment :=
  {| App.BDFARE_BASE_URL := "https://bdfare.example/api";
     App.convert_to_bdfare_request := fun p => Return p;
     App.httpx_post := fun _ _ => RouteExamples.created shopping_result;
     App.requests_post := fun _ _ => RouteExamples.created shopping_result;
     App.requests_json_error_is_request_exception := true;
     App.flyhub_answer := fun _ _ _ => Return (JObj [("Results", JArr Examples.flyhub_offers)]);
     App.convert_bdfare_to_flyhub := fun _ => Return Examples.flyhub_request;
     App.format_flight_data_with_ids := Examples.concat_results |}.

(** What [convert_bdfare_to_flyhub] makes of the family trip. *)
Definition family_trip_for_flyhub : json :=
  JObj [("AdultQuantity", JNum 2);
        ("ChildQuantity", JNum 1);
        ("InfantQuantity", JNum 0);
        ("EndUserIp", JStr "103.124.251.147");
        ("JourneyType", JStr "1");
        ("Segments",
         JArr [JObj [("Origin", JStr "JSR"); ("Destination", JStr "DAC");
                     ("CabinClass", JStr "1");
                     ("DepartureDateTime", JStr "2024-12-15")];
               JObj [("Origin", JStr "DAC"); ("Destination", JStr "CGP");
                     ("CabinClass", JStr "1");
                     ("DepartureDateTime", JStr "2024-12-16")]])].

Definition ok_200 (j : json) : http_reply := Response 200 "" (Decoded j).

End MoreExamples.

(* ------------------------------------------------------------------ *)
(** * Properties *)

(** ** Slices *)

Section Slices.
Context {A : Type}.
Implicit Types l : list A.

Lemma slice_length_le l start stop :
  start <= stop -> 0 <= start ->
  Z.of_nat (List.length (slice l start stop)) <= stop - start.
Proof.
  intros Hle Hs. unfold slice, adjust_index.
  destruct (Z.ltb_spec start 0); [lia|].
  destruct (Z.ltb_spec stop 0); [lia|].
  rewrite length_firstn. lia.
Qed.

(** With bounds that are not negative, a slice is a window: drop [start]
    elements, keep at most [size]. *)
Lemma slice_window l start size :
  0 <= start -> 0 <= size ->
  slice l start (start + size)
  = firstn (Z.to_nat size) (skipn (Z.to_nat start) l).
Proof.
  intros Hs Hz. unfold slice, adjust_index.
  destruct (Z.ltb_spec start 0); [lia|].
  destruct (Z.ltb_spec (start + size) 0); [lia|].
  set (len := Z.of_nat (List.length l)).
  destruct (Z.le_gt_cases len start) as [Hout | Hin].
  - rewrite (skipn_all2 (n := Z.to_nat start)) by (subst len; lia).
    rewrite firstn_nil.
    replace (Z.min (start + size) len - Z.min start len) with 0 by lia.
    reflexivity.
  - replace (Z.min start len) with start by lia.
    destruct (Z.le_gt_cases (start + size) len) as [Hfit | Hover].
    + replace (Z.min (start + size) len - start) with size by lia.
      reflexivity.
    + replace (Z.min (start + size) len - start) with (len - start) by lia.
      rewrite !firstn_all2; [reflexivity | |];
        rewrite length_skipn; subst len; lia.
Qed.

Lemma slice_past_end l start stop :
  Z.of_nat (List.length l) <= start -> start <= stop -> slice l start stop = [].
Proof.
  intros Hout Hle. unfold slice, adjust_index.
  destruct (Z.ltb_spec start 0); [lia|].
  destruct (Z.ltb_spec stop 0); [lia|].
  replace (Z.min stop (Z.of_nat (List.length l))
           - Z.min start (Z.of_nat (List.length l))) with 0 by lia.
  reflexivity.
Qed.

End Slices.

(** ** Pagination *)

Section Pagination.
Import CombinedService.
Variable E : App.environment.

(** Once the offers are formatted nothing can fail: the result is their
    page, whatever [page] and [size] are. *)
Lemma combined_search_of_merged payload page size tr all_flights :
  App.merged_flights E payload page size = (tr, Return all_flights) ->
  App.combined_search E payload page size
  = (tr, Return (paginate all_flights page size)).
Proof.
  intros Hm. unfold App.combined_search, combined_search, combined_search_body.
  unfold App.merged_flights in Hm. rewrite Hm. cbn.
  now rewrite app_nil_r.
Qed.

(** C1. For a request that reaches the merge step with the merged
    sequence [M], and [page >= 1], [size >= 1]: [combined_search] returns
    [total_flights = len(M)] and [flights] equal to the window
    [M[(page-1)*size : (page-1)*size + size]] clamped to [M]; that window
    has at most [size] elements and is empty, with the full total, when
    [(page-1)*size >= len(M)]. *)
Theorem combined_search_returns_page payload page size tr M :
  1 <= page -> 1 <= size ->
  App.merged_flights E payload page size = (tr, Return M) ->
  let window :=
    firstn (Z.to_nat size) (skipn (Z.to_nat ((page - 1) * size)) M) in
  App.combined_search E payload page size
  = (tr, Return {| page := page; size := size;
                   total_flights := Z.of_nat (List.length M);
                   flights := window |})
  /\ Z.of_nat (List.length window) <= size
  /\ (Z.of_nat (List.length M) <= (page - 1) * size -> window = []).
Proof.
  intros Hp Hs Hm window.
  assert (Hstart : 0 <= (page - 1) * size) by nia.
  split; [| split].
  - rewrite (combined_search_of_merged _ _ _ _ _ Hm).
    unfold paginate. rewrite slice_window by lia. reflexivity.
  - subst window. rewrite length_firstn. lia.
  - intros Hout. subst window.
    rewrite skipn_all2 by lia. apply firstn_nil.
Qed.

End Pagination.

(** The second page of two out of FlyHub's five offers. *)
Lemma combined_search_returns_page_witness :
  App.combined_search Examples.flyhub_up_bdfare_down
    (Examples.request_to "flyhub") 2 2
  = ([FlyhubFetch Examples.flyhub_request 2 2],
     Return {| CombinedService.page := 2; CombinedService.size := 2;
               CombinedService.total_flights := 5;
               CombinedService.flights :=
                 [Examples.offer "fh-3" "flyhub"; Examples.offer "fh-4" "flyhub"] |}).
Proof.
  exact (proj1 (combined_search_returns_page Examples.flyhub_up_bdfare_down
                  (Examples.request_to "flyhub") 2 2
                  [FlyhubFetch Examples.flyhub_request 2 2]
                  Examples.flyhub_offers
                  ltac:(lia) ltac:(lia) eq_refl)).
Defined.

(** ** Validation of the payload *)

Lemma prefix_app (s t : string) : prefix s (s ++ t) = true.
Proof.
  induction s as [| a s IH]; cbn; [destruct t; reflexivity|].
  destruct (Ascii.ascii_dec a a); [exact IH | congruence].
Qed.

Lemma contains_suffix (pre needle : string) :
  Spec.contains needle (pre ++ needle) = true.
Proof.
  induction pre as [| a pre IH]; cbn.
  - pose proof (prefix_app needle "") as Hp.
    assert (Hn : (needle ++ "")%string = needle)
      by (clear; induction needle; cbn; congruence).
    rewrite Hn in Hp.
    destruct needle; cbn in *; [reflexivity|].
    now rewrite Hp.
  - rewrite IH. apply orb_true_r.
Qed.

Lemma missing_keys_nil payload :
  Spec.missing_keys payload = [] ->
  truthy_str (CombinedService.source payload) = true
  /\ truthy_str (CombinedService.pointOfSale payload) = true
  /\ truthy (CombinedService.request payload) = true.
Proof.
  unfold Spec.missing_keys.
  destruct (truthy_str (CombinedService.source payload));
    destruct (truthy_str (CombinedService.pointOfSale payload));
    destruct (truthy (CombinedService.request payload));
    cbn; intros H; try discriminate H; auto.
Qed.

(** Binding [fetch_bdfare_flights(x, page=.., size=..)] fails on [page]. *)
Lemma call_fetch_bdfare_flights_raises E arg page size :
  App.call_fetch_bdfare_flights E arg [("page", page); ("size", size)]
  = Raise (TypeError
             "fetch_bdfare_flights() got an unexpected keyword argument 'page'").
Proof. reflexivity. Qed.

Ltac open_service :=
  unfold App.combined_search, CombinedService.combined_search,
    CombinedService.combined_search_body, CombinedService.merged_flights.

Ltac keys_present H :=
  let Hs := fresh "Hsource" in
  let Hp := fresh "Hpos" in
  let Hr := fresh "Hrequest" in
  destruct (missing_keys_nil _ H) as (Hs & Hp & Hr);
  open_service; rewrite Hs, Hp, Hr; cbn [negb].

Section Validation.
Import CombinedService.
Variable E : App.environment.

(** The first key found missing is the one the request is refused for. *)
Lemma first_missing_key_raises payload page size key others :
  Spec.missing_keys payload = key :: others ->
  App.combined_search E payload page size
  = ([], Raise (HTTPException 422
                  ("Validation Error: The '" ++ key
                     ++ "' key is missing in the payload."))).
Proof.
  unfold Spec.missing_keys. open_service.
  destruct (truthy_str (source payload));
    destruct (truthy_str (pointOfSale payload));
    destruct (truthy (request payload)); cbn;
    intros Hm; inversion Hm; subst; reflexivity.
Qed.

(** C4, as the service has it. With the keys present and [source]
    ["bdfare"], or [source] ["all"] once the FlyHub request adapter, which
    runs first, has returned, the service calls [fetch_bdfare_flights] with
    the keywords [page] and [size]; the client takes [payload] only, so the
    call raises [TypeError] before any request is sent and the error leaves
    as HTTP 500.  For ["all"] with an adapter that raises, the request
    fails with the adapter's exception instead.  Either way nothing is sent
    and no result is ever returned. *)
Theorem bdfare_call_is_a_type_error payload page size :
  Spec.missing_keys payload = [] ->
  source payload = Some "bdfare" \/ source payload = Some "all" ->
  let message :=
    "fetch_bdfare_flights() got an unexpected keyword argument 'page'" in
  (forall arg,
      App.call_fetch_bdfare_flights E arg [("page", page); ("size", size)]
      = Raise (TypeError message))
  /\ trace_of (App.combined_search E payload page size) = []
  /\ (forall r, result_of (App.combined_search E payload page size) <> Return r)
  /\ ((source payload = Some "bdfare"
       \/ exists flyhub_payload,
           App.convert_bdfare_to_flyhub E (request payload)
           = Return flyhub_payload) ->
      result_of (App.combined_search E payload page size)
      = Raise (HTTPException 500
                 ("An unexpected error occurred: " ++ message)))
  /\ (forall e,
         source payload = Some "all" ->
         App.convert_bdfare_to_flyhub E (request payload) = Raise e ->
         result_of (App.combined_search E payload page size)
         = Raise (handle e)).
Proof.
  intros Hkeys Hsrc message.
  split; [intros arg; reflexivity|].
  keys_present Hkeys.
  destruct Hsrc as [Hsrc | Hsrc]; rewrite Hsrc; cbn.
  - split; [reflexivity | split; [intros r; discriminate |]].
    split; [reflexivity | intros e Hall; discriminate Hall].
  - destruct (App.convert_bdfare_to_flyhub E (request payload)) as [fp | e] eqn:Hconv;
      cbn.
    + split; [reflexivity | split; [intros r; discriminate |]].
      split; [reflexivity | intros e _ He; discriminate He].
    + split; [reflexivity | split; [intros r; discriminate |]].
      split.
      * intros [Hb | [fp' Hfp]]; discriminate.
      * intros e' _ He. now inversion He.
Qed.

(** C6. A payload in which [source], [pointOfSale] or [request] is
    missing (absent, [None] or empty, as the service tests it) is refused
    with HTTP 422 and a message naming the first such key; nothing is
    sent to a supplier. *)
Theorem missing_key_is_rejected payload page size :
  Spec.missing_keys payload <> [] ->
  exists key,
    hd_error (Spec.missing_keys payload) = Some key
    /\ In key ["source"; "pointOfSale"; "request"]
    /\ App.combined_search E payload page size
       = ([], Raise (HTTPException 422
                       ("Validation Error: The '" ++ key
                          ++ "' key is missing in the payload."))).
Proof.
  intros Hmiss.
  destruct (Spec.missing_keys payload) as [| key others] eqn:Hm;
    [now elim Hmiss|].
  exists key. split; [reflexivity | split].
  - assert (Hin : In key (Spec.missing_keys payload))
      by (rewrite Hm; now left).
    unfold Spec.missing_keys in Hin.
    repeat (apply in_app_or in Hin as [Hin | Hin]);
      match type of Hin with
      | In _ (if ?b then _ else _) => destruct b
      end; cbn in Hin |- *; intuition.
  - exact (first_missing_key_raises payload page size key others Hm).
Qed.

(** C5, as the service has it. A request whose [source] is none of
    ["bdfare"], ["flyhub"], ["all"] is refused with HTTP 422 before
    anything is sent; when its three keys are present the message is
    "Validation Error: Invalid source specified: " followed by the
    source, and otherwise it names the missing key instead. *)
Theorem unknown_source_is_rejected payload page size :
  Spec.known_source (str_opt (source payload)) = false ->
  trace_of (App.combined_search E payload page size) = []
  /\ http_status (result_of (App.combined_search E payload page size)) = 422
  /\ (Spec.missing_keys payload = [] ->
      let wanted := "Invalid source specified: " ++ str_opt (source payload) in
      result_of (App.combined_search E payload page size)
      = Raise (HTTPException 422 ("Validation Error: " ++ wanted))
      /\ Spec.contains wanted ("Validation Error: " ++ wanted) = true).
Proof.
  intros Hunknown.
  assert (Hgo : Spec.missing_keys payload = [] ->
                App.combined_search E payload page size
                = ([], Raise (HTTPException 422
                                ("Validation Error: Invalid source specified: "
                                   ++ str_opt (source payload))))).
  { intros Hkeys. keys_present Hkeys.
    unfold fetch_raw_results.
    unfold Spec.known_source in Hunknown.
    apply orb_false_elim in Hunknown as [Hunknown Hall].
    apply orb_false_elim in Hunknown as [Hbd Hfh].
    rewrite Hbd, Hfh, Hall. reflexivity. }
  destruct (Spec.missing_keys payload) as [| k ks] eqn:Hm.
  - rewrite (Hgo eq_refl). cbn [trace_of result_of fst snd http_status].
    split; [reflexivity | split; [reflexivity | intros _]].
    split; [reflexivity | apply contains_suffix].
  - rewrite (first_missing_key_raises payload page size k ks Hm).
    cbn [trace_of result_of fst snd http_status].
    split; [reflexivity | split; [reflexivity | intros Hnil; discriminate Hnil]].
Qed.

End Validation.

(** A BDFare request, with BDFare unreachable and FlyHub up. *)
Lemma bdfare_call_is_a_type_error_witness :
  Spec.missing_keys (Examples.request_to "bdfare") = []
  /\ App.combined_search Examples.flyhub_up_bdfare_down
       (Examples.request_to "bdfare") 1 50
     = ([], Raise (HTTPException 500
                     "An unexpected error occurred: fetch_bdfare_flights() got an unexpected keyword argument 'page'")).
Proof.
  split; [reflexivity|].
  pose proof (bdfare_call_is_a_type_error Examples.flyhub_up_bdfare_down
                (Examples.request_to "bdfare") 1 50 eq_refl (or_introl eq_refl))
    as (_ & Htrace & _ & Hresult & _).
  specialize (Hresult (or_introl eq_refl)).
  destruct (App.combined_search Examples.flyhub_up_bdfare_down
              (Examples.request_to "bdfare") 1 50) as [tr r].
  cbn in Htrace, Hresult. now subst.
Defined.

(** C4 as stated fails: a request to ["all"] with its keys present, whose
    FlyHub request adapter finds no shopping criteria, is refused with
    HTTP 422 by the adapter's [KeyError]; the call of
    [fetch_bdfare_flights] is never reached and there is no HTTP 500. *)
Lemma type_error_counterexample :
  Spec.missing_keys (Examples.request_to "all") = []
  /\ CombinedService.source (Examples.request_to "all") = Some "all"
  /\ App.combined_search MoreExamples.adapter_fails
       (Examples.request_to "all") 1 50
     = ([], Raise (HTTPException 422
                     "Missing key in payload: 'shoppingCriteria'"))
  /\ CombinedService.http_status
       (result_of (App.combined_search MoreExamples.adapter_fails
                     (Examples.request_to "all") 1 50))
     <> 500.
Proof.
  split; [reflexivity | split; [reflexivity | split; [reflexivity|]]].
  cbn. discriminate.
Qed.

(** A request without a point of sale. *)
Lemma missing_key_is_rejected_witness :
  exists key,
    hd_error (Spec.missing_keys Examples.xyz_without_point_of_sale) = Some key
    /\ In key ["source"; "pointOfSale"; "request"]
    /\ App.combined_search Examples.flyhub_up_bdfare_down
         Examples.xyz_without_point_of_sale 1 50
       = ([], Raise (HTTPException 422
                       ("Validation Error: The '" ++ key
                          ++ "' key is missing in the payload."))).
Proof.
  apply (missing_key_is_rejected Examples.flyhub_up_bdfare_down
           Examples.xyz_without_point_of_sale 1 50).
  discriminate.
Defined.

(** C5 as stated fails: an unknown source in a request that has no point of
    sale is refused with a message about the point of sale, which does not
    mention "Invalid source specified: xyz". *)
Lemma unknown_source_message_counterexample :
  Spec.known_source "xyz" = false
  /\ CombinedService.source Examples.xyz_without_point_of_sale = Some "xyz"
  /\ App.combined_search Examples.flyhub_up_bdfare_down
       Examples.xyz_without_point_of_sale 1 50
     = ([], Raise (HTTPException 422
                     "Validation Error: The 'pointOfSale' key is missing in the payload."))
  /\ Spec.contains "Invalid source specified: xyz"
       "Validation Error: The 'pointOfSale' key is missing in the payload."
     = false.
Proof.
  split; [reflexivity | split; [reflexivity | split; reflexivity]].
Qed.

(** An unknown source in an otherwise complete request. *)
Lemma unknown_source_is_rejected_witness :
  Spec.known_source "xyz" = false
  /\ App.combined_search Examples.flyhub_up_bdfare_down
       (Examples.request_to "xyz") 1 50
     = ([], Raise (HTTPException 422
                     "Validation Error: Invalid source specified: xyz")).
Proof.
  split; [reflexivity|].
  pose proof (unknown_source_is_rejected Examples.flyhub_up_bdfare_down
                (Examples.request_to "xyz") 1 50 eq_refl)
    as (Htrace & _ & Hresult).
  destruct (Hresult eq_refl) as [Hr _].
  destruct (App.combined_search Examples.flyhub_up_bdfare_down
              (Examples.request_to "xyz") 1 50) as [tr r].
  cbn in Htrace, Hr. now subst.
Defined.

(** ** Aggregation *)

Section Aggregation.
Import CombinedService.
Variable E : App.environment.

(** A FlyHub request with its keys present goes out, with the page and size
    it was given. *)
Lemma flyhub_request_is_sent payload page size flyhub_payload :
  Spec.missing_keys payload = [] ->
  source payload = Some "flyhub" ->
  App.convert_bdfare_to_flyhub E (request payload) = Return flyhub_payload ->
  App.merged_flights E payload page size
  = ([FlyhubFetch flyhub_payload page size],
     match App.flyhub_answer E flyhub_payload page size with
     | Return raw =>
         match App.format_flight_data_with_ids E [("flyhub", raw)] with
         | Return formatted => Return (get_flights formatted)
         | Raise e => Raise e
         end
     | Raise e => Raise e
     end).
Proof.
  intros Hkeys Hsrc Hconv.
  destruct (missing_keys_nil _ Hkeys) as (Hs & Hp & Hr).
  unfold App.merged_flights, merged_flights.
  rewrite Hs, Hp, Hr, Hsrc. cbn. rewrite Hconv. cbn.
  destruct (App.flyhub_answer E flyhub_payload page size) as [raw | e]; cbn;
    [| reflexivity].
  destruct (App.format_flight_data_with_ids E [("flyhub", raw)]); reflexivity.
Qed.

(** C7, as the service has it. [combined_search] does not look at the
    values of [page] and [size]: once the FlyHub request adapter has
    returned, a FlyHub request with its keys present is sent with whatever
    page and size it was given, also below 1, and when FlyHub and the
    formatter answer, the result is returned (HTTP 200) with [flights] the
    Python slice [M[(page-1)*size : (page-1)*size + size]]. *)
Theorem page_and_size_are_not_validated payload page size flyhub_payload :
  Spec.missing_keys payload = [] ->
  source payload = Some "flyhub" ->
  App.convert_bdfare_to_flyhub E (request payload) = Return flyhub_payload ->
  trace_of (App.combined_search E payload page size)
  = [FlyhubFetch flyhub_payload page size]
  /\ (forall raw formatted,
         App.flyhub_answer E flyhub_payload page size = Return raw ->
         App.format_flight_data_with_ids E [("flyhub", raw)] = Return formatted ->
         let M := get_flights formatted in
         result_of (App.combined_search E payload page size)
         = Return {| page := page; size := size;
                     total_flights := Z.of_nat (List.length M);
                     flights := slice M ((page - 1) * size)
                                  ((page - 1) * size + size) |}
         /\ http_status (result_of (App.combined_search E payload page size))
            = 200).
Proof.
  intros Hkeys Hsrc Hconv.
  pose proof (flyhub_request_is_sent payload page size flyhub_payload
                Hkeys Hsrc Hconv) as Hm.
  split.
  - unfold App.combined_search, combined_search, combined_search_body.
    unfold App.merged_flights in Hm. rewrite Hm.
    destruct (App.flyhub_answer E flyhub_payload page size) as [raw | e];
      [destruct (App.format_flight_data_with_ids E [("flyhub", raw)]) |];
      reflexivity.
  - intros raw formatted Hraw Hfmt M.
    rewrite Hraw, Hfmt in Hm.
    rewrite (combined_search_of_merged E _ _ _ _ _ Hm).
    split; reflexivity.
Qed.

(** C3, as the service has it. When the one supplier of a FlyHub request
    fails, no result is returned and the failure leaves as an
    [HTTPException]: FlyHub's own if it raised one, 422 for a [ValueError]
    or a [KeyError], 500 for anything else. *)
Theorem flyhub_failure_fails_the_request payload page size flyhub_payload e :
  Spec.missing_keys payload = [] ->
  source payload = Some "flyhub" ->
  App.convert_bdfare_to_flyhub E (request payload) = Return flyhub_payload ->
  App.flyhub_answer E flyhub_payload page size = Raise e ->
  App.combined_search E payload page size
  = ([FlyhubFetch flyhub_payload page size], Raise (handle e))
  /\ match e with
     | HTTPException _ _ => handle e = e
     | ValueError _ | KeyError _ => exists detail, handle e = HTTPException 422 detail
     | _ => exists detail, handle e = HTTPException 500 detail
     end.
Proof.
  intros Hkeys Hsrc Hconv Hfail.
  pose proof (flyhub_request_is_sent payload page size flyhub_payload
                Hkeys Hsrc Hconv) as Hm.
  rewrite Hfail in Hm. split.
  - unfold App.combined_search, combined_search, combined_search_body.
    unfold App.merged_flights in Hm. rewrite Hm. reflexivity.
  - destruct e; cbn; eauto.
Qed.

End Aggregation.

(** Page 0 of a FlyHub request is sent to FlyHub as page 0. *)
Lemma page_and_size_are_not_validated_witness :
  trace_of (App.combined_search Examples.flyhub_up_bdfare_down
              (Examples.request_to "flyhub") 0 50)
  = [FlyhubFetch Examples.flyhub_request 0 50].
Proof.
  exact (proj1 (page_and_size_are_not_validated Examples.flyhub_up_bdfare_down
                  (Examples.request_to "flyhub") 0 50 Examples.flyhub_request
                  eq_refl eq_refl eq_refl)).
Defined.

(** C7 as stated fails: with page -1 and size 2 the request is sent to
    FlyHub and answered with HTTP 200 and the slice [M[-4:-2]] of the five
    offers. *)
Lemma page_below_one_counterexample :
  -1 < 1
  /\ App.combined_search Examples.flyhub_up_bdfare_down
       (Examples.request_to "flyhub") (-1) 2
     = ([FlyhubFetch Examples.flyhub_request (-1) 2],
        Return {| CombinedService.page := -1; CombinedService.size := 2;
                  CombinedService.total_flights := 5;
                  CombinedService.flights :=
                    [Examples.offer "fh-2" "flyhub"; Examples.offer "fh-3" "flyhub"] |})
  /\ CombinedService.http_status
       (result_of (App.combined_search Examples.flyhub_up_bdfare_down
                     (Examples.request_to "flyhub") (-1) 2))
     <> 422.
Proof.
  split; [lia | split; [reflexivity | cbn; discriminate]].
Qed.

(** FlyHub answers a FlyHub request with a body that is not JSON. *)
Lemma flyhub_failure_fails_the_request_witness :
  App.combined_search Examples.all_suppliers_down
    (Examples.request_to "flyhub") 1 50
  = ([FlyhubFetch Examples.flyhub_request 1 50],
     Raise (HTTPException 422
              "Validation Error: Expecting value: line 1 column 1 (char 0)")).
Proof.
  exact (proj1 (flyhub_failure_fails_the_request Examples.all_suppliers_down
                  (Examples.request_to "flyhub") 1 50 Examples.flyhub_request
                  (ValueError "Expecting value: line 1 column 1 (char 0)")
                  eq_refl eq_refl eq_refl eq_refl)).
Defined.

(** C3 as stated fails: the only supplier of the request fails, and the
    request is refused as a validation error, HTTP 422, not with the 502 or
    500 of an [AllSuppliersFailedError]. *)
Lemma all_suppliers_failed_counterexample :
  App.flyhub_answer Examples.all_suppliers_down Examples.flyhub_request 1 50
  = Raise (ValueError "Expecting value: line 1 column 1 (char 0)")
  /\ App.combined_search Examples.all_suppliers_down
       (Examples.request_to "flyhub") 1 50
     = ([FlyhubFetch Examples.flyhub_request 1 50],
        Raise (HTTPException 422
                 "Validation Error: Expecting value: line 1 column 1 (char 0)"))
  /\ Spec.all_suppliers_failed_status
       (HTTPException 422
          "Validation Error: Expecting value: line 1 column 1 (char 0)")
     = false.
Proof.
  split; [reflexivity | split; reflexivity].
Qed.

(** With a BDFare client whose call binds, the ["all"] branch does contain
    a failure of BDFare: its exception becomes [None] in [raw_results] and
    FlyHub's answer is kept. *)
Lemma gather_contains_a_failed_task
      (call : json -> list (string * Z) -> outcome (io json))
      (answer : json -> Z -> Z -> outcome json)
      (convert : json -> outcome json)
      enriched request_data page size sent e flyhub_payload raw :
  call enriched [("page", page); ("size", size)] = Return (sent, Raise e) ->
  convert request_data = Return flyhub_payload ->
  answer flyhub_payload page size = Return raw ->
  CombinedService.fetch_raw_results call answer convert "all"
    enriched request_data page size
  = ((sent ++ [FlyhubFetch flyhub_payload page size])%list,
     Return [("bdfare", JNull); ("flyhub", raw)]).
Proof.
  intros Hcall Hconv Hanswer.
  unfold CombinedService.fetch_raw_results. cbn.
  rewrite Hconv, Hcall. cbn.
  unfold CombinedService.fetch_flyhub_flights. rewrite Hanswer. cbn.
  reflexivity.
Qed.

(** C2 on the code: FlyHub alone answers the request with five offers, yet
    the same request to ["all"], with BDFare down, is answered with HTTP 500
    and FlyHub is never asked. *)
Theorem partial_failure_aborts_the_request :
  CombinedService.http_status
    (result_of (App.combined_search Examples.flyhub_up_bdfare_down
                  (Examples.request_to "flyhub") 1 50)) = 200
  /\ App.combined_search Examples.flyhub_up_bdfare_down
       (Examples.request_to "all") 1 50
     = ([], Raise (HTTPException 500
                     "An unexpected error occurred: fetch_bdfare_flights() got an unexpected keyword argument 'page'")).
Proof.
  split; reflexivity.
Qed.

(** ** The FlyHub token cache *)

Section TokenCache.
Import FlyhubRoute.
Variable FLYHUB_BASE_URL : string.
Variables FLYHUB_USERNAME FLYHUB_API_KEY : json.

Notation "'authenticate_call'" :=
  (Authenticate (authenticate_url FLYHUB_BASE_URL)
     (credentials FLYHUB_USERNAME FLYHUB_API_KEY)).
Notation "'search_call'" := (AirSearch (search_url FLYHUB_BASE_URL)).

Lemma expired_iff (c : cache) (t : Q) :
  Qle_bool (expires_at c) t = false <-> (t < expires_at c)%Q.
Proof.
  split.
  - intros Hb. apply Qnot_le_lt. intros Hle.
    apply Qle_bool_iff in Hle. congruence.
  - intros Hlt. destruct (Qle_bool (expires_at c) t) eqn:Hb; [| reflexivity].
    apply Qle_bool_iff in Hb. now apply Qlt_not_le in Hlt.
Qed.

Lemma needs_refresh_false (c : cache) (t : Q) :
  needs_refresh c t = false
  <-> truthy (token c) = true /\ (t < expires_at c)%Q.
Proof.
  unfold needs_refresh.
  rewrite orb_false_iff, negb_false_iff, expired_iff. reflexivity.
Qed.

Lemma needs_refresh_true (c : cache) (t : Q) :
  needs_refresh c t = true
  <-> truthy (token c) = false \/ ~ (t < expires_at c)%Q.
Proof.
  unfold needs_refresh.
  rewrite orb_true_iff, negb_true_iff, <- expired_iff.
  destruct (Qle_bool (expires_at c) t); intuition congruence.
Qed.

Lemma authenticate_resume_calls reply w :
  calls (fst (authenticate_resume reply w)) = calls w.
Proof.
  unfold authenticate_resume.
  destruct reply as [status_code text [token_data | why] | msg]; cbn;
    try destruct (status_code =? 200); cbn; try reflexivity.
  destruct (subscript token_data "TokenId"); reflexivity.
Qed.

Lemma authentications_app l1 l2 :
  authentications (l1 ++ l2) = (authentications l1 + authentications l2)%nat.
Proof.
  unfold authentications. now rewrite filter_app, length_app.
Qed.

Section OneCaller.
Variables auth_reply search_reply : http_reply.
Variable rtt : Q.

Notation "'fetch'" :=
  (fetch_flyhub_flights FLYHUB_BASE_URL FLYHUB_USERNAME FLYHUB_API_KEY
     auth_reply search_reply rtt).

(** C8. In [fetch_flyhub_flights] the cached token counts as valid exactly
    when the clock is strictly before [expires_at]; [authenticate_flyhub]
    is called, once and before the search, exactly when the token is absent
    (or empty) or that test fails; otherwise the search goes out with the
    cached token and the cache is left as it was. *)
Theorem refresh_exactly_when_invalid payload w :
  let c := cached_token w in
  let t := now w in
  let w' := fst (fetch payload w) in
  (Qle_bool (expires_at c) t = false <-> (t < expires_at c)%Q)
  /\ exists issued,
      calls w' = (calls w ++ issued)%list
      /\ (authentications issued = 1%nat
          <-> truthy (token c) = false \/ ~ (t < expires_at c)%Q)
      /\ (truthy (token c) = false \/ ~ (t < expires_at c)%Q ->
          exists rest,
            issued = authenticate_call :: rest /\ authentications rest = 0%nat)
      /\ (truthy (token c) = true /\ (t < expires_at c)%Q ->
          issued = [search_call (token c) payload] /\ cached_token w' = c).
Proof.
  cbv zeta. split; [apply expired_iff|].
  unfold fetch_flyhub_flights.
  destruct (needs_refresh (cached_token w) (now w)) eqn:Hneed.
  - pose proof (proj1 (needs_refresh_true _ _) Hneed) as Hinvalid.
    assert (Hvalid : ~ (truthy (token (cached_token w)) = true
                        /\ (now w < expires_at (cached_token w))%Q)).
    { intros Hv. apply needs_refresh_false in Hv. congruence. }
    unfold authenticate_flyhub.
    set (w1 := advance rtt (issue authenticate_call w)).
    pose proof (authenticate_resume_calls auth_reply w1) as Hcalls.
    destruct (authenticate_resume auth_reply w1) as [w2 [[] | e]];
      cbn [fst] in Hcalls.
    + exists [authenticate_call; search_call (token (cached_token w2)) payload].
      cbn. rewrite Hcalls. cbn. rewrite <- app_assoc.
      split; [reflexivity|]. split; [tauto|]. split; [| tauto].
      intros _. eexists. split; reflexivity.
    + exists [authenticate_call]. cbn. rewrite Hcalls. cbn.
      split; [reflexivity|]. split; [tauto|]. split; [| tauto].
      intros _. eexists. split; reflexivity.
  - pose proof (proj1 (needs_refresh_false _ _) Hneed) as Hvalid.
    exists [search_call (token (cached_token w)) payload]. cbn.
    split; [reflexivity|]. split; [| split].
    + split; [discriminate|].
      intros Hinvalid. apply needs_refresh_true in Hinvalid. congruence.
    + intros Hinvalid. apply needs_refresh_true in Hinvalid. congruence.
    + intros _. split; reflexivity.
Qed.

End OneCaller.

(** *** Callers that overlap *)

Lemma update_app {A} (done rest : list A) (old new : A) :
  update (List.length done) new (done ++ old :: rest) = (done ++ new :: rest)%list.
Proof.
  induction done as [| d done IH]; cbn; [reflexivity | now rewrite IH].
Qed.

Lemma run_cons a schedule s :
  run FLYHUB_BASE_URL FLYHUB_USERNAME FLYHUB_API_KEY (a :: schedule) s
  = run FLYHUB_BASE_URL FLYHUB_USERNAME FLYHUB_API_KEY schedule
      (step FLYHUB_BASE_URL FLYHUB_USERNAME FLYHUB_API_KEY a s).
Proof. reflexivity. Qed.

(** A caller started on a cache that needs a refresh authenticates. *)
Lemma step_begin_invalid done p rest w :
  needs_refresh (cached_token w) (now w) = true ->
  step FLYHUB_BASE_URL FLYHUB_USERNAME FLYHUB_API_KEY
    (Begin (List.length done)) (w, (done ++ Created p :: rest)%list)
  = (issue authenticate_call w, (done ++ AwaitingAuthenticate p :: rest)%list).
Proof.
  intros Hneed. unfold step.
  rewrite nth_error_app2, Nat.sub_diag by lia. cbn [nth_error].
  unfold start. rewrite Hneed. now rewrite update_app.
Qed.

Lemma begin_all_authenticate payloads :
  forall done w,
    needs_refresh (cached_token w) (now w) = true ->
    run FLYHUB_BASE_URL FLYHUB_USERNAME FLYHUB_API_KEY
      (map Begin (seq (List.length done) (List.length payloads)))
      (w, (done ++ map Created payloads)%list)
    = ({| cached_token := cached_token w; now := now w;
          calls := (calls w ++ repeat authenticate_call (List.length payloads))%list |},
       (done ++ map AwaitingAuthenticate payloads)%list).
Proof.
  induction payloads as [| p payloads IH]; intros done w Hneed.
  - cbn. rewrite !app_nil_r. now destruct w.
  - cbn [List.length seq map].
    rewrite run_cons, step_begin_invalid by exact Hneed.
    replace (done ++ AwaitingAuthenticate p :: map Created payloads)%list
      with ((done ++ [AwaitingAuthenticate p]) ++ map Created payloads)%list
      by now rewrite <- app_assoc.
    replace (S (List.length done))
      with (List.length (done ++ [AwaitingAuthenticate p]))
      by (rewrite length_app; cbn; lia).
    rewrite IH by exact Hneed.
    cbn. rewrite <- !app_assoc. reflexivity.
Qed.

(** A caller whose authentication is answered with a token stores it and
    sends its search with it, whatever the cache held before. *)
Lemma deliver_token_then_search w callers i p text fields tok :
  nth_error callers i = Some (AwaitingAuthenticate p) ->
  lookup "TokenId" fields = Some tok ->
  calls (fst (step FLYHUB_BASE_URL FLYHUB_USERNAME FLYHUB_API_KEY
                (Deliver i (Response 200 text (Decoded (JObj fields))))
                (w, callers)))
  = (calls w ++ [search_call tok p])%list.
Proof.
  intros Hcaller Htoken. unfold step. rewrite Hcaller.
  unfold resume, authenticate_resume, subscript. rewrite Htoken.
  reflexivity.
Qed.

(** C9, as the module has it. The cache has no lock: when any number of
    callers are started while the token is absent or expired, before an
    answer to an authentication has been stored, every one of them calls
    [authenticate_flyhub], so there are as many authentications as
    callers; and each of them, when its own authentication is answered,
    sends its search with the token of that answer. *)
Theorem every_early_caller_authenticates payloads w :
  needs_refresh (cached_token w) (now w) = true ->
  let after :=
    run FLYHUB_BASE_URL FLYHUB_USERNAME FLYHUB_API_KEY
      (map Begin (seq 0 (List.length payloads))) (w, map Created payloads) in
  calls (fst after)
  = (calls w ++ repeat authenticate_call (List.length payloads))%list
  /\ authentications (calls (fst after))
     = (authentications (calls w) + List.length payloads)%nat
  /\ snd after = map AwaitingAuthenticate payloads
  /\ (forall w' callers i p text fields tok,
         nth_error callers i = Some (AwaitingAuthenticate p) ->
         lookup "TokenId" fields = Some tok ->
         calls (fst (step FLYHUB_BASE_URL FLYHUB_USERNAME FLYHUB_API_KEY
                       (Deliver i (Response 200 text (Decoded (JObj fields))))
                       (w', callers)))
         = (calls w' ++ [search_call tok p])%list).
Proof.
  intros Hneed after. subst after.
  pose proof (begin_all_authenticate payloads [] w Hneed) as Hrun.
  cbn [List.length app] in Hrun. rewrite Hrun. cbn [fst snd calls].
  split; [reflexivity | split; [| split; [reflexivity|]]].
  - rewrite authentications_app. f_equal.
    clear. induction (List.length payloads) as [| n IH]; cbn; [reflexivity|].
    unfold authentications in *. cbn. now rewrite IH.
  - intros w' callers i p text fields tok.
    apply deliver_token_then_search.
Qed.

End TokenCache.

(** A caller that is alone on the loop does what [fetch_flyhub_flights]
    does. *)
Lemma one_caller_agrees FLYHUB_BASE_URL FLYHUB_USERNAME FLYHUB_API_KEY
      auth_reply search_reply rtt payload w :
  let schedule :=
    if FlyhubRoute.needs_refresh (FlyhubRoute.cached_token w) (FlyhubRoute.now w)
    then [FlyhubRoute.Begin 0; FlyhubRoute.Elapse rtt;
          FlyhubRoute.Deliver 0 auth_reply; FlyhubRoute.Elapse rtt;
          FlyhubRoute.Deliver 0 search_reply]
    else [FlyhubRoute.Begin 0; FlyhubRoute.Elapse rtt;
          FlyhubRoute.Deliver 0 search_reply] in
  let alone :=
    FlyhubRoute.run FLYHUB_BASE_URL FLYHUB_USERNAME FLYHUB_API_KEY schedule
      (w, [FlyhubRoute.Created payload]) in
  let direct :=
    FlyhubRoute.fetch_flyhub_flights FLYHUB_BASE_URL FLYHUB_USERNAME
      FLYHUB_API_KEY auth_reply search_reply rtt payload w in
  FlyhubRoute.calls (fst alone) = FlyhubRoute.calls (fst direct)
  /\ FlyhubRoute.cached_token (fst alone) = FlyhubRoute.cached_token (fst direct)
  /\ snd alone = [FlyhubRoute.Finished (snd direct)].
Proof.
  cbv zeta. unfold FlyhubRoute.fetch_flyhub_flights.
  destruct (FlyhubRoute.needs_refresh (FlyhubRoute.cached_token w)
              (FlyhubRoute.now w)) eqn:Hneed.
  - unfold FlyhubRoute.authenticate_flyhub.
    cbn [FlyhubRoute.run fold_left FlyhubRoute.step nth_error].
    unfold FlyhubRoute.start. rewrite Hneed.
    cbn [FlyhubRoute.update FlyhubRoute.step nth_error FlyhubRoute.resume].
    destruct (FlyhubRoute.authenticate_resume auth_reply _) as [w2 [[] | e]];
      cbn; auto.
  - cbn [FlyhubRoute.run fold_left FlyhubRoute.step nth_error].
    unfold FlyhubRoute.start. rewrite Hneed. cbn. auto.
Qed.

(** Two callers on an expired token. *)
Lemma every_early_caller_authenticates_witness :
  FlyhubRoute.authentications
    (FlyhubRoute.calls
       (fst (FlyhubRoute.run FlyhubExamples.base_url FlyhubExamples.username
               FlyhubExamples.api_key
               (map FlyhubRoute.Begin (seq 0 2))
               (FlyhubExamples.expired, FlyhubExamples.two_callers))))
  = 2%nat.
Proof.
  exact (proj1 (proj2 (every_early_caller_authenticates
                         FlyhubExamples.base_url FlyhubExamples.username
                         FlyhubExamples.api_key
                         [Examples.flyhub_request; Examples.flyhub_request]
                         FlyhubExamples.expired eq_refl))).
Defined.

(** C9 as stated fails: two callers started on an expired token, both
    before FlyHub has answered, authenticate twice, and their searches go
    out with two different tokens. *)
Lemma duplicate_refresh_counterexample :
  let after :=
    FlyhubRoute.run FlyhubExamples.base_url FlyhubExamples.username
      FlyhubExamples.api_key FlyhubExamples.both_start_then_replies
      (FlyhubExamples.expired, FlyhubExamples.two_callers) in
  FlyhubRoute.needs_refresh (FlyhubRoute.cached_token FlyhubExamples.expired)
    (FlyhubRoute.now FlyhubExamples.expired) = true
  /\ FlyhubRoute.authentications (FlyhubRoute.calls (fst after)) = 2%nat
  /\ FlyhubRoute.bearers (FlyhubRoute.calls (fst after))
     = [JStr "tok-A"; JStr "tok-B"]
  /\ ~ Spec.single_refresh (FlyhubRoute.calls (fst after)).
Proof.
  cbv zeta.
  split; [reflexivity | split; [reflexivity | split; [reflexivity|]]].
  intros [Honce _]. vm_compute in Honce. discriminate Honce.
Qed.

(** ** Outbound calls of the BDFare clients *)

Section OutboundCalls.
Variable E : App.environment.

(** C10, as the clients have it. Once its payload is transformed,
    [fetch_bdfare_flights] sends one POST through httpx and, unless that is
    answered with status 200 and a JSON body, a second POST through
    requests; with a base URL and an API key configured, [search_flights]
    sends one POST through httpx and, when that fails in transport, a
    second through curl.  Neither sends a third. *)
Theorem fallback_sends_a_second_request
        payload transformed base key httpx curl body :
  App.convert_to_bdfare_request E payload = Return transformed ->
  truthy_str base = true -> truthy_str key = true ->
  let url := App.BDFARE_BASE_URL E ++ "/AirShopping" in
  let answered :=
    match App.httpx_post E url transformed with
    | Response status_code _ (Decoded _) => status_code =? 200
    | _ => false
    end in
  let route_url := str_opt base ++ "/AirShopping" in
  trace_of (App.fetch_bdfare_flights E payload)
  = (if answered then [HttpxPost url transformed]
     else [HttpxPost url transformed; RequestsPost url transformed])
  /\ trace_of (BdfareRoute.search_flights base key httpx curl body)
     = match httpx route_url body with
       | TransportFailure _ => [HttpxPost route_url body; CurlPost route_url body]
       | Response _ _ _ => [HttpxPost route_url body]
       end.
Proof.
  intros Hconv Hbase Hkey. cbv zeta. split.
  - unfold App.fetch_bdfare_flights, BdfareClient.fetch_bdfare_flights.
    rewrite Hconv. cbn [lift bind app].
    unfold BdfareClient.httpx_attempt, BdfareClient.fallback_to_requests.
    destruct (App.httpx_post E _ transformed)
      as [status_code text [j | why] | msg]; cbn;
      try destruct (status_code =? 200); cbn;
      try reflexivity;
      destruct (App.requests_post E _ transformed)
        as [status_code' text' [j' | why'] | msg']; cbn;
      try destruct ((400 <=? status_code') && (status_code' <? 600)); cbn;
      try destruct (App.requests_json_error_is_request_exception E);
      reflexivity.
  - unfold BdfareRoute.search_flights. rewrite Hbase, Hkey. cbn [negb].
    unfold BdfareRoute.curl_fallback.
    destruct (httpx _ body) as [status_code text [j | why] | msg]; cbn;
      try destruct (status_code =? 200); cbn;
      try (destruct (BdfareRoute.make_response j); reflexivity);
      try reflexivity.
    destruct (curl _ body) as [returncode stdout stderr [j | why] | msg'];
      cbn; try destruct (returncode =? 0); cbn; try reflexivity.
    destruct (BdfareRoute.make_response j); reflexivity.
Qed.

End OutboundCalls.

(** BDFare refuses the connection. *)
Lemma fallback_sends_a_second_request_witness :
  trace_of (App.fetch_bdfare_flights Examples.flyhub_up_bdfare_down
              Examples.search_request)
  = [HttpxPost "https://bdfare.example/api/AirShopping" Examples.search_request;
     RequestsPost "https://bdfare.example/api/AirShopping" Examples.search_request].
Proof.
  exact (proj1 (fallback_sends_a_second_request Examples.flyhub_up_bdfare_down
                  Examples.search_request Examples.search_request
                  (Some "https://bdfare.example/api") (Some "key")
                  (fun _ _ => TransportFailure "connection refused")
                  (fun _ _ => SpawnFailure "curl: not found")
                  Examples.search_request
                  eq_refl eq_refl eq_refl)).
Defined.

(** C10 as stated fails: with BDFare refusing the connection, one call of
    [fetch_bdfare_flights] sends two requests, the second through another
    library. *)
Lemma single_outbound_call_counterexample :
  App.httpx_post Examples.flyhub_up_bdfare_down
    "https://bdfare.example/api/AirShopping" Examples.search_request
  = TransportFailure "connection refused"
  /\ Spec.outbound_calls
       (App.fetch_bdfare_flights Examples.flyhub_up_bdfare_down
          Examples.search_request) = 2%nat
  /\ trace_of (App.fetch_bdfare_flights Examples.flyhub_up_bdfare_down
                 Examples.search_request)
     = [HttpxPost "https://bdfare.example/api/AirShopping" Examples.search_request;
        RequestsPost "https://bdfare.example/api/AirShopping" Examples.search_request].
Proof.
  split; [reflexivity | split; reflexivity].
Qed.

(* ------------------------------------------------------------------ *)
(** * Further properties of the code *)

(** ** Pages *)

Lemma firstn_plus {A} (n m : nat) (l : list A) :
  firstn (n + m) l = (firstn n l ++ firstn m (skipn n l))%list.
Proof.
  revert l. induction n as [| n IH]; intros l; [reflexivity|].
  destruct l as [| x l]; cbn.
  - now rewrite firstn_nil.
  - now rewrite IH.
Qed.

(** Whatever the bounds, a slice is a run of consecutive elements of the
    list. *)
Lemma slice_is_a_run {A} (l : list A) start stop :
  exists before after, l = (before ++ slice l start stop ++ after)%list.
Proof.
  unfold slice. cbv zeta.
  match goal with
  | |- context [firstn ?n (skipn ?k l)] =>
      exists (firstn k l), (skipn n (skipn k l))
  end.
  now rewrite !firstn_skipn.
Qed.

Section Pages.
Import CombinedService.
Variable E : App.environment.

(** A result comes from a formatted list, and from nothing else. *)
Lemma combined_search_returns_inv payload page size tr r :
  App.combined_search E payload page size = (tr, Return r) ->
  exists M, App.merged_flights E payload page size = (tr, Return M)
            /\ r = paginate M page size.
Proof.
  unfold App.combined_search, App.merged_flights, combined_search,
    combined_search_body.
  destruct (merged_flights _ _ _ _ payload page size) as [tr' [M | e]]; cbn.
  - rewrite app_nil_r. intros H. inversion H. subst. now exists M.
  - intros H. inversion H.
Qed.

(** X1. Whatever [page] and [size] are, valid or not, a result that
    [combined_search] returns echoes them, reports the length of the whole
    formatted list as [total_flights], and its [flights] are consecutive
    offers of that list, in their order: nothing is invented, repeated or
    reordered. *)
Theorem returned_flights_are_a_run payload page size tr r :
  App.combined_search E payload page size = (tr, Return r) ->
  exists M before after,
    App.merged_flights E payload page size = (tr, Return M)
    /\ M = (before ++ flights r ++ after)%list
    /\ total_flights r = Z.of_nat (List.length M)
    /\ CombinedService.page r = page /\ CombinedService.size r = size.
Proof.
  intros Hr.
  destruct (combined_search_returns_inv _ _ _ _ _ Hr) as (M & Hm & ->).
  destruct (slice_is_a_run M ((page - 1) * size) ((page - 1) * size + size))
    as (before & after & Hrun).
  exists M, before, after. cbn. auto.
Qed.

(** X2. The pages of one list tile it: for a size of at least 1, the
    flights of pages 1 to [n], one after the other, are the first
    [n * size] offers; so once [n * size] reaches the length of the list
    they are the whole list, each offer once. *)
Theorem pages_tile_the_list (M : list json) (size : Z) (n : nat) :
  1 <= size ->
  let pages :=
    map (fun p => flights (paginate M (Z.of_nat p) size)) (seq 1 n) in
  List.concat pages = firstn (n * Z.to_nat size) M
  /\ (Z.of_nat (List.length M) <= Z.of_nat n * size -> List.concat pages = M).
Proof.
  intros Hsize pages.
  assert (Htile : List.concat pages = firstn (n * Z.to_nat size) M).
  { subst pages. induction n as [| n IH]; [reflexivity|].
    rewrite seq_S, map_app, concat_app, IH. cbn [map List.concat plus].
    rewrite app_nil_r. unfold paginate. cbn [flights].
    rewrite slice_window by lia.
    replace (Z.to_nat ((Z.of_nat (S n) - 1) * size))
      with (n * Z.to_nat size)%nat by nia.
    rewrite <- firstn_plus. f_equal. lia. }
  split; [exact Htile|].
  intros Hall. rewrite Htile. apply firstn_all2. nia.
Qed.

(** X3. Page 0 is always empty: for every size, positive or not, a request
    for page 0 that reaches the formatted list is answered with no flights
    and the full total. *)
Theorem page_zero_is_empty payload size tr M :
  App.merged_flights E payload 0 size = (tr, Return M) ->
  App.combined_search E payload 0 size
  = (tr, Return {| page := 0; size := size;
                   total_flights := Z.of_nat (List.length M);
                   flights := [] |}).
Proof.
  intros Hm. rewrite (combined_search_of_merged E _ _ _ _ _ Hm).
  unfold paginate. f_equal. f_equal.
  unfold slice, adjust_index.
  replace (Z.to_nat _) with 0%nat; [reflexivity|].
  destruct (Z.ltb_spec ((0 - 1) * size) 0);
    destruct (Z.ltb_spec ((0 - 1) * size + size) 0); lia.
Qed.

(** X4. A negative size on page 1 cuts from the end: the flights are the
    whole list without its last [-size] offers, so the page can be longer
    than any size asked for. *)
Theorem negative_size_drops_the_tail payload size tr M :
  size < 0 ->
  App.merged_flights E payload 1 size = (tr, Return M) ->
  App.combined_search E payload 1 size
  = (tr, Return {| page := 1; size := size;
                   total_flights := Z.of_nat (List.length M);
                   flights := firstn (List.length M - Z.to_nat (- size)) M |}).
Proof.
  intros Hneg Hm. rewrite (combined_search_of_merged E _ _ _ _ _ Hm).
  unfold paginate. f_equal. f_equal.
  unfold slice, adjust_index.
  replace ((1 - 1) * size) with 0 by lia. cbn [Z.ltb Z.compare Z.add].
  destruct (Z.ltb_spec size 0); [| lia].
  replace (Z.min 0 (Z.of_nat (List.length M))) with 0 by lia.
  cbn [Z.to_nat skipn]. do 2 f_equal. lia.
Qed.

End Pages.

(** ** Errors of the combined service *)

Section ServiceErrors.
Import CombinedService.
Variable E : App.environment.

(** X5. Every exception derived from [Exception] that is raised inside the
    [try] of [combined_search] leaves as an [HTTPException], chosen by the
    [except] clauses in their order: a [KeyError] as 422 "Missing key in
    payload: ...", a [ValueError] as 422 "Validation Error: " and its
    message, an [HTTPException] as it is, anything else as 500 "An
    unexpected error occurred: ...".  An exception that is no [Exception]
    (a cancellation) is caught by none of the clauses and is not part of
    this statement. *)
Theorem exceptions_leave_as_http payload page size tr e :
  CombinedService.combined_search_body
    (App.call_fetch_bdfare_flights E) (App.flyhub_answer E)
    (App.convert_bdfare_to_flyhub E) (App.format_flight_data_with_ids E)
    payload page size
  = (tr, Raise e) ->
  App.combined_search E payload page size = (tr, Raise (handle e))
  /\ match e with
     | KeyError _ =>
         exists text,
           handle e = HTTPException 422 ("Missing key in payload: " ++ text)
     | ValueError msg =>
         handle e = HTTPException 422 ("Validation Error: " ++ msg)
     | HTTPException _ _ => handle e = e
     | _ =>
         exists text,
           handle e
           = HTTPException 500 ("An unexpected error occurred: " ++ text)
     end.
Proof.
  intros Hbody. split.
  - unfold App.combined_search, combined_search. rewrite Hbody. cbn.
    now rewrite app_nil_r.
  - destruct e; cbn; eauto.
Qed.

(** X6. A failure of the FlyHub request adapter comes before any dispatch:
    for a request to ["flyhub"] or ["all"] with its keys present, what the
    adapter raises is what the request fails with (a [KeyError] as 422
    "Missing key in payload: ...", a [ValueError] as 422, anything else
    derived from [Exception] as 500), and no supplier is asked. *)
Theorem adapter_failure_precedes_dispatch payload page size e :
  Spec.missing_keys payload = [] ->
  source payload = Some "flyhub" \/ source payload = Some "all" ->
  App.convert_bdfare_to_flyhub E (request payload) = Raise e ->
  App.combined_search E payload page size = ([], Raise (handle e))
  /\ (forall key, e = KeyError key ->
        exists text,
          handle e = HTTPException 422 ("Missing key in payload: " ++ text)).
Proof.
  intros Hkeys Hsrc Hconv. split.
  - keys_present Hkeys.
    destruct Hsrc as [Hsrc | Hsrc]; rewrite Hsrc; cbn; rewrite Hconv;
      reflexivity.
  - intros key ->. cbn. eauto.
Qed.

End ServiceErrors.

(** ** The BDFare search client and its fallback *)

Section SearchClient.
Variable E : App.environment.

(** X7. The failure of the first attempt never surfaces: once the request
    is transformed, [fetch_bdfare_flights] answers with what httpx got only
    if that was a 200 with a JSON body; otherwise its result, value or
    error, is the result of [fallback_to_requests] alone, so an upstream
    status seen by httpx (a 401, say) is reported only if requests sees it
    too. *)
Theorem first_failure_is_discarded payload transformed :
  App.convert_to_bdfare_request E payload = Return transformed ->
  let url := App.BDFARE_BASE_URL E ++ "/AirShopping" in
  (forall status_code text j,
      App.httpx_post E url transformed = Response status_code text (Decoded j) ->
      status_code = 200 ->
      App.fetch_bdfare_flights E payload = ([HttpxPost url transformed], Return j))
  /\ ((forall text j, App.httpx_post E url transformed
                      <> Response 200 text (Decoded j)) ->
      result_of (App.fetch_bdfare_flights E payload)
      = result_of (BdfareClient.fallback_to_requests (App.requests_post E)
                     (App.requests_json_error_is_request_exception E)
                     url transformed)).
Proof.
  intros Hconv url.
  unfold App.fetch_bdfare_flights, BdfareClient.fetch_bdfare_flights.
  rewrite Hconv. cbn [lift bind app]. fold url.
  set (fallback := BdfareClient.fallback_to_requests _ _ url transformed).
  clearbody fallback. destruct fallback as [sent outcome_].
  unfold BdfareClient.httpx_attempt.
  destruct (App.httpx_post E url transformed)
    as [s text [j | why] | msg] eqn:Hreply; cbn;
    try (destruct (Z.eqb_spec s 200) as [-> | Hs]; cbn);
    split;
    try (intros s' text' j' Heq Hs'; inversion Heq; subst;
         first [reflexivity | contradiction]);
    try (intros _; reflexivity).
  intros Hnot. now elim (Hnot text j).
Qed.

(** X8. A success that is not a 200 is sent twice: when BDFare answers both
    libraries with the same JSON body and the same status below 400 other
    than 200 (a 201, a 204, a 302), [fetch_bdfare_flights] takes the first
    answer for a failure, posts the request again and returns the body of
    the second answer. *)
Theorem other_success_is_posted_twice payload transformed status_code text j :
  App.convert_to_bdfare_request E payload = Return transformed ->
  let url := App.BDFARE_BASE_URL E ++ "/AirShopping" in
  App.httpx_post E url transformed = Response status_code text (Decoded j) ->
  App.requests_post E url transformed = Response status_code text (Decoded j) ->
  status_code <> 200 -> status_code < 400 ->
  App.fetch_bdfare_flights E payload
  = ([HttpxPost url transformed; RequestsPost url transformed], Return j).
Proof.
  intros Hconv url Hx Hr Hs Hlt.
  unfold App.fetch_bdfare_flights, BdfareClient.fetch_bdfare_flights.
  rewrite Hconv. cbn [lift bind app]. fold url.
  unfold BdfareClient.httpx_attempt, BdfareClient.fallback_to_requests.
  rewrite Hx, Hr. cbn.
  destruct (Z.eqb_spec status_code 200); [contradiction|]. cbn.
  destruct (Z.leb_spec 400 status_code); [lia|]. reflexivity.
Qed.

End SearchClient.

(** ** The BDFare search route *)

Section SearchRoute.
Variables base key : option string.
Variable httpx : string -> json -> http_reply.
Variable curl : string -> json -> curl_reply.

Notation "'route_url'" := (str_opt base ++ "/AirShopping").

(** X9. Without a base URL or without an API key, [search_flights] sends
    nothing and fails with HTTP 500; the base URL is looked at first. *)
Theorem unconfigured_route_sends_nothing body :
  truthy_str base = false \/ truthy_str key = false ->
  BdfareRoute.search_flights base key httpx curl body
  = ([], Raise (HTTPException 500
                  (if truthy_str base then "BDFare API key is not configured."
                   else "BDFare Base URL is not configured."))).
Proof.
  unfold BdfareRoute.search_flights.
  destruct (truthy_str base), (truthy_str key); cbn;
    intros [H | H]; try discriminate H; reflexivity.
Qed.

(** X10. [search_flights] returns only an object, and says where it came
    from: a returned response has [success] true and its [data] are the
    fields of the JSON object that httpx got with status 200, or, after a
    transport failure of httpx, of the object curl printed on exit 0. *)
Theorem search_returns_an_object body tr r :
  BdfareRoute.search_flights base key httpx curl body = (tr, Return r) ->
  BdfareRoute.success r = true
  /\ ((exists text,
          httpx route_url body
          = Response 200 text (Decoded (JObj (BdfareRoute.data r)))
          /\ tr = [HttpxPost route_url body])
      \/ (exists msg stdout stderr,
             httpx route_url body = TransportFailure msg
             /\ curl route_url body
                = Completed 0 stdout stderr (Decoded (JObj (BdfareRoute.data r)))
             /\ tr = [HttpxPost route_url body; CurlPost route_url body])).
Proof.
  unfold BdfareRoute.search_flights, BdfareRoute.curl_fallback.
  destruct (truthy_str base); cbn; [| intros H; inversion H].
  destruct (truthy_str key); cbn; [| intros H; inversion H].
  destruct (httpx route_url body) as [s text [j | why] | msg]; cbn.
  - destruct (Z.eqb_spec s 200) as [-> | Hs]; cbn; [| intros H; inversion H].
    destruct j; cbn; intros H; inversion H; subst; cbn.
    split; [reflexivity | left; eauto].
  - destruct (s =? 200); cbn; intros H; inversion H.
  - destruct (curl route_url body)
      as [code stdout stderr [j | why] | msg']; cbn;
      try (intros H; inversion H; fail).
    + destruct (Z.eqb_spec code 0) as [-> | Hc]; cbn; [| intros H; inversion H].
      destruct j; cbn; intros H; inversion H; subst; cbn.
      split; [reflexivity | right; eauto 8].
    + destruct (code =? 0); cbn; intros H; inversion H.
Qed.

(** X11. [search_flights] falls back for transport failures only.  An
    answer with a status other than 200 fails with that status and its
    text after the one httpx request; after a transport failure, whatever
    goes wrong with curl (it cannot be started, exits non-zero, prints no
    JSON, prints JSON that is not an object) fails with HTTP 500. *)
Theorem search_failures body :
  truthy_str base = true -> truthy_str key = true ->
  (forall status_code text decoded,
      httpx route_url body = Response status_code text decoded ->
      status_code <> 200 ->
      BdfareRoute.search_flights base key httpx curl body
      = ([HttpxPost route_url body],
         Raise (HTTPException status_code ("BDFare API error: " ++ text))))
  /\ (forall msg e,
         httpx route_url body = TransportFailure msg ->
         result_of (BdfareRoute.search_flights base key httpx curl body) = Raise e ->
         exists detail, e = HTTPException 500 detail).
Proof.
  intros Hbase Hkey.
  unfold BdfareRoute.search_flights, BdfareRoute.curl_fallback.
  rewrite Hbase, Hkey. cbn [negb]. split.
  - intros s text decoded Hreply Hs. cbn. rewrite Hreply.
    destruct (Z.eqb_spec s 200); [contradiction | reflexivity].
  - intros msg e Hreply. cbn. rewrite Hreply.
    destruct (curl route_url body)
      as [code stdout stderr [j | why] | msg']; cbn;
      try destruct (code =? 0); cbn;
      try (destruct j; cbn);
      intros H; inversion H; eauto.
Qed.

End SearchRoute.

(** ** The arithmetic of the clock *)

Section FloatRounding.
Import FlyhubRoute.

Lemma exponent_reached n d :
  0 < n -> 0 < d -> reaches_pow2 (exponent n d) n d = true.
Proof.
  intros Hn Hd. unfold exponent.
  destruct (reaches_pow2 (Z.log2 n - Z.log2 d) n d) eqn:Hr; [exact Hr|].
  pose proof (Z.log2_spec n Hn) as [Hn1 _].
  pose proof (Z.log2_spec d Hd) as [_ Hd2].
  pose proof (Z.log2_nonneg n). pose proof (Z.log2_nonneg d).
  set (ln := Z.log2 n) in *. set (ld := Z.log2 d) in *.
  unfold reaches_pow2.
  destruct (Z.leb_spec 0 (ln - ld - 1)).
  - apply Z.leb_le.
    assert (2 ^ ln = 2 ^ (ln - ld - 1) * 2 ^ Z.succ ld)
      by (rewrite <- Z.pow_add_r by lia; f_equal; lia).
    assert (0 < 2 ^ (ln - ld - 1)) by (apply Z.pow_pos_nonneg; lia).
    nia.
  - apply Z.leb_le.
    assert (2 ^ Z.succ ld = 2 ^ ln * 2 ^ (- (ln - ld - 1)))
      by (rewrite <- Z.pow_add_r by lia; f_equal; lia).
    assert (0 < 2 ^ (- (ln - ld - 1))) by (apply Z.pow_pos_nonneg; lia).
    nia.
Qed.

Lemma nearest_even_error num den :
  0 < den -> 2 * Z.abs (nearest_even num den * den - num) <= den.
Proof.
  intros Hden. unfold nearest_even.
  pose proof (Z.div_mod num den ltac:(lia)) as Hdm.
  pose proof (Z.mod_pos_bound num den Hden) as Hr.
  set (k := num / den) in *. set (r := num mod den) in *.
  destruct (Z.ltb_spec (2 * r) den); [nia|].
  destruct (Z.ltb_spec den (2 * r)); [nia|].
  destruct (Z.even k); nia.
Qed.

(** Scaled to 53 bits, the value is at least 2^52. *)
Lemma scaled_reaches_2_52 n d :
  0 < n -> 0 < d ->
  let e := exponent n d in
  2 ^ 52 * (d * 2 ^ Z.max (e - 52) 0) <= n * 2 ^ Z.max (52 - e) 0.
Proof.
  intros Hn Hd e. pose proof (exponent_reached n d Hn Hd) as Hr.
  fold e in Hr. unfold reaches_pow2 in Hr.
  destruct (Z.leb_spec 0 e).
  - apply Z.leb_le in Hr.
    destruct (Z.le_gt_cases e 52).
    + replace (Z.max (e - 52) 0) with 0 by lia.
      replace (Z.max (52 - e) 0) with (52 - e) by lia.
      assert (2 ^ 52 = 2 ^ e * 2 ^ (52 - e))
        by (rewrite <- Z.pow_add_r by lia; f_equal; lia).
      assert (0 < 2 ^ (52 - e)) by (apply Z.pow_pos_nonneg; lia).
      rewrite Z.pow_0_r. nia.
    + replace (Z.max (e - 52) 0) with (e - 52) by lia.
      replace (Z.max (52 - e) 0) with 0 by lia.
      assert (2 ^ e = 2 ^ 52 * 2 ^ (e - 52))
        by (rewrite <- Z.pow_add_r by lia; f_equal; lia).
      rewrite Z.pow_0_r. nia.
  - apply Z.leb_le in Hr.
    replace (Z.max (e - 52) 0) with 0 by lia.
    replace (Z.max (52 - e) 0) with (52 - e) by lia.
    assert (2 ^ (52 - e) = 2 ^ 52 * 2 ^ (- e))
      by (rewrite <- Z.pow_add_r by lia; f_equal; lia).
    rewrite Z.pow_0_r. nia.
Qed.

(** Rounding moves a positive value by at most its 2^-53rd part. *)
Lemma float_round_error (q : Q) :
  (0 < q)%Q ->
  (q * (1 - unit_roundoff) <= float_round q)%Q
  /\ (float_round q <= q * (1 + unit_roundoff))%Q.
Proof.
  destruct q as [num d]. unfold Qlt. cbn. rewrite Z.mul_1_r. intros Hpos.
  destruct num as [| n | n]; try lia.
  unfold float_round. cbn [Qnum Qden]. unfold nearest_binary64.
  pose proof (scaled_reaches_2_52 (Z.pos n) (Z.pos d) ltac:(lia) ltac:(lia))
    as Hbig.
  cbv zeta in Hbig.
  set (e := exponent (Z.pos n) (Z.pos d)) in *.
  set (up := Z.max (52 - e) 0) in *. set (down := Z.max (e - 52) 0) in *.
  assert (Hup : 0 < 2 ^ up) by (apply Z.pow_pos_nonneg; lia).
  assert (Hdown : 0 < 2 ^ down) by (apply Z.pow_pos_nonneg; lia).
  pose proof (nearest_even_error (Z.pos n * 2 ^ up) (Z.pos d * 2 ^ down)
                ltac:(nia)) as Herr.
  set (m := nearest_even (Z.pos n * 2 ^ up) (Z.pos d * 2 ^ down)) in *.
  unfold Qle, unit_roundoff. cbn [Qnum Qden Qmult Qminus Qplus Qopp].
  rewrite ?Pos2Z.inj_mul, ?Z2Pos.id by lia.
  change (2 ^ 52) with 4503599627370496 in Hbig.
  split; nia.
Qed.

End FloatRounding.

(** ** The FlyHub token cache, one call after another *)

Section TokenLifetime.
Import FlyhubRoute.
Variable FLYHUB_BASE_URL : string.
Variables FLYHUB_USERNAME FLYHUB_API_KEY : json.
Variables auth_reply search_reply : http_reply.
Variable rtt : Q.

Notation "'authenticate'" :=
  (authenticate_flyhub FLYHUB_BASE_URL FLYHUB_USERNAME FLYHUB_API_KEY
     auth_reply rtt).
Notation "'fetch'" :=
  (fetch_flyhub_flights FLYHUB_BASE_URL FLYHUB_USERNAME FLYHUB_API_KEY
     auth_reply search_reply rtt).
Notation "'authenticate_call'" :=
  (Authenticate (authenticate_url FLYHUB_BASE_URL)
     (credentials FLYHUB_USERNAME FLYHUB_API_KEY)).
Notation "'search_call'" := (AirSearch (search_url FLYHUB_BASE_URL)).

(** An authentication that succeeds was answered 200 with a ["TokenId"],
    and stores it with the float sum of the time of the answer and 3600 as
    its expiry. *)
Lemma authenticate_success w w' :
  authenticate w = (w', Return tt) ->
  exists text fields tok,
    auth_reply = Response 200 text (Decoded (JObj fields))
    /\ lookup "TokenId" fields = Some tok
    /\ w' = {| cached_token :=
                 {| token := tok;
                    expires_at := float_add (Qplus (now w) rtt) (3600 # 1) |};
               now := Qplus (now w) rtt;
               calls := (calls w ++ [authenticate_call])%list |}.
Proof.
  unfold authenticate_flyhub, authenticate_resume.
  destruct auth_reply as [s text [token_data | why] | msg]; cbn;
    try (intros H; inversion H; fail).
  - destruct (Z.eqb_spec s 200) as [-> | Hs]; [| intros H; inversion H].
    unfold subscript.
    destruct token_data as [| | | | | fields]; try (intros H; inversion H; fail).
    destruct (lookup "TokenId" fields) as [tok |] eqn:Htok;
      intros H; inversion H.
    exists text, fields, tok. auto.
  - destruct (s =? 200); intros H; inversion H.
Qed.

(** The stored expiry is within a 2^-53rd part of one hour after the
    answer. *)
Lemma expiry_is_near_one_hour (t : Q) :
  (0 <= t)%Q ->
  ((t + (3600 # 1)) * (1 - unit_roundoff) <= float_add t (3600 # 1))%Q
  /\ (float_add t (3600 # 1) <= (t + (3600 # 1)) * (1 + unit_roundoff))%Q.
Proof.
  intros Ht. apply float_round_error. lra.
Qed.

(** X12. A token lasts an hour from the answer that brought it, up to the
    rounding of one float addition.  After an authentication that
    succeeded at the (non-negative) time [a = now + rtt], the cache holds
    the ["TokenId"] of the answer with the float sum [a + 3600] as expiry;
    at every time before [(a + 3600) * (1 - 2^-53)] a fetch needs no
    refresh, unless that token is empty or null, in which case every fetch
    refreshes; from [(a + 3600) * (1 + 2^-53)] on every fetch refreshes. *)
Theorem fresh_token_lasts_an_hour w w' :
  (0 <= now w + rtt)%Q ->
  authenticate w = (w', Return tt) ->
  exists text fields tok,
    auth_reply = Response 200 text (Decoded (JObj fields))
    /\ lookup "TokenId" fields = Some tok
    /\ token (cached_token w') = tok
    /\ expires_at (cached_token w') = float_add (now w + rtt) (3600 # 1)
    /\ (forall t,
           (t < (now w + rtt + (3600 # 1)) * (1 - unit_roundoff))%Q ->
           needs_refresh (cached_token w') t = negb (truthy tok))
    /\ (forall t,
           ((now w + rtt + (3600 # 1)) * (1 + unit_roundoff) <= t)%Q ->
           needs_refresh (cached_token w') t = true).
Proof.
  intros Hclock Hauth.
  destruct (authenticate_success _ _ Hauth)
    as (text & fields & tok & Hr & Htok & ->).
  exists text, fields, tok.
  destruct (expiry_is_near_one_hour _ Hclock) as [Hlow Hhigh].
  repeat (split; [assumption || reflexivity|]).
  unfold needs_refresh. cbn [cached_token token expires_at]. split.
  - intros t Ht.
    replace (Qle_bool (float_add (now w + rtt) (3600 # 1)) t) with false;
      [apply orb_false_r|].
    symmetry. apply (expired_iff {| token := tok; expires_at := _ |} t).
    cbn [expires_at]. eapply Qlt_le_trans; [exact Ht | exact Hlow].
  - intros t Ht.
    assert (Hle : (float_add (now w + rtt) (3600 # 1) <= t)%Q)
      by (eapply Qle_trans; [exact Hhigh | exact Ht]).
    apply Qle_bool_iff in Hle. rewrite Hle. apply orb_true_r.
Qed.

(** X13. The second call reuses the token of the first.  When a fetch finds
    the cache in need of a refresh and FlyHub answers the authentication
    with a non-empty token, the clock at the answer is between 0 and 2^52
    seconds and a POST takes at most 3599 seconds, the next fetch does not
    authenticate: the two fetches send one authentication and two searches,
    both with that token. *)
Theorem second_fetch_reuses_the_token w text fields tok first second :
  needs_refresh (cached_token w) (now w) = true ->
  auth_reply = Response 200 text (Decoded (JObj fields)) ->
  lookup "TokenId" fields = Some tok ->
  truthy tok = true ->
  (0 <= now w + rtt)%Q ->
  (now w + rtt <= 4503599627370496 # 1)%Q ->
  (rtt <= 3599 # 1)%Q ->
  let w1 := fst (fetch first w) in
  let w2 := fst (fetch second w1) in
  calls w2
  = (calls w ++ [authenticate_call; search_call tok first;
                 search_call tok second])%list
  /\ cached_token w2 = cached_token w1
  /\ token (cached_token w1) = tok.
Proof.
  intros Hneed Hauth Htok Htruthy Hclock Hbound Hrtt w1 w2.
  assert (Hw1 : w1 = {| cached_token :=
                          {| token := tok;
                             expires_at :=
                               float_add (Qplus (now w) rtt) (3600 # 1) |};
                        now := Qplus (Qplus (now w) rtt) rtt;
                        calls := (calls w ++ [authenticate_call;
                                              search_call tok first])%list |}).
  { subst w1. unfold fetch_flyhub_flights. rewrite Hneed.
    unfold authenticate_flyhub, authenticate_resume. rewrite Hauth.
    cbn [Z.eqb Pos.eqb]. unfold subscript. rewrite Htok.
    unfold send_search, issue, advance, store. cbn.
    now rewrite <- app_assoc. }
  assert (Hvalid : needs_refresh (cached_token w1) (now w1) = false).
  { rewrite Hw1. apply needs_refresh_false.
    cbn [cached_token token expires_at now]. split; [exact Htruthy|].
    destruct (expiry_is_near_one_hour _ Hclock) as [Hlow _].
    eapply Qlt_le_trans; [| exact Hlow].
    unfold unit_roundoff. lra. }
  assert (Hsecond : fetch second w1
                    = (advance rtt (send_search FLYHUB_BASE_URL second w1),
                       search_resume search_reply)).
  { unfold fetch_flyhub_flights. now rewrite Hvalid. }
  subst w2. rewrite Hsecond. cbn [fst]. clearbody w1. subst w1.
  unfold send_search, issue, advance. cbn [cached_token token calls].
  rewrite <- app_assoc. auto.
Qed.

(** X14. An authentication that fails changes nothing and stops the fetch:
    the exception of [authenticate_flyhub] is the exception of the fetch,
    the cache is as it was, and the one request sent is the
    authentication; no search goes out.  For an answer with a status other
    than 200 the exception is an [HTTPException] with that status. *)
Theorem failed_authentication_sends_no_search payload w w' e :
  needs_refresh (cached_token w) (now w) = true ->
  authenticate w = (w', Raise e) ->
  fetch payload w = (w', Raise e)
  /\ cached_token w' = cached_token w
  /\ calls w' = (calls w ++ [authenticate_call])%list
  /\ (forall status_code text body,
         auth_reply = Response status_code text body -> status_code <> 200 ->
         e = HTTPException status_code "FlyHub Authentication Failed").
Proof.
  intros Hneed Hauth. split.
  - unfold fetch_flyhub_flights. now rewrite Hneed, Hauth.
  - revert Hauth. unfold authenticate_flyhub, authenticate_resume.
    destruct auth_reply as [s text [token_data | why] | msg]; cbn.
    + destruct (Z.eqb_spec s 200) as [-> | Hs].
      * destruct (subscript token_data "TokenId"); intros H; inversion H.
        repeat split. intros s' t' b' Heq Hs'. inversion Heq. congruence.
      * intros H; inversion H. repeat split.
        intros s' t' b' Heq _. now inversion Heq.
    + destruct (Z.eqb_spec s 200) as [-> | Hs]; intros H; inversion H;
        repeat split; intros s' t' b' Heq Hs'; inversion Heq; congruence.
    + intros H; inversion H. repeat split. intros s' t' b' Heq. inversion Heq.
Qed.

End TokenLifetime.

(** ** The request adapter of the combined route *)

Section Adapter.
Import CombinedRoute RouteExamples.

Lemma and_then_return {A B} (m : outcome A) (k : A -> outcome B) b :
  and_then m k = Return b -> exists a, m = Return a /\ k a = Return b.
Proof. destruct m as [a | e]; cbn; [eauto | discriminate]. Qed.

Ltac returns H :=
  let x := fresh "x" in
  let Hx := fresh "H" x in
  apply and_then_return in H as (x & Hx & H).

Lemma count_ptc_counts code paxes n :
  count_ptc code paxes = Return n ->
  n = Z.of_nat (List.length (filter (has_ptc code) paxes)).
Proof.
  revert n. induction paxes as [| pax paxes IH]; cbn; intros n H.
  - now inversion H.
  - returns H. returns H. inversion H. subst n.
    rewrite (IH _ Hx0). unfold has_ptc. rewrite Hx.
    destruct (equals_str x code); cbn [List.length]; lia.
Qed.

Lemma one_code_at_most pax :
  ((if has_ptc "ADT" pax then 1 else 0)
   + (if has_ptc "CHD" pax then 1 else 0)
   + (if has_ptc "INF" pax then 1 else 0))%nat
  = (if known_ptc pax then 1 else 0)%nat.
Proof.
  unfold known_ptc, has_ptc.
  destruct (getitem pax "ptc") as [v | e]; [| reflexivity].
  destruct v; try reflexivity. unfold equals_str.
  destruct (String.eqb_spec s "ADT"), (String.eqb_spec s "CHD"),
    (String.eqb_spec s "INF"); subst; try discriminate; reflexivity.
Qed.

Lemma codes_partition paxes :
  (List.length (filter (has_ptc "ADT") paxes)
   + List.length (filter (has_ptc "CHD") paxes)
   + List.length (filter (has_ptc "INF") paxes))%nat
  = List.length (filter known_ptc paxes).
Proof.
  induction paxes as [| pax paxes IH]; [reflexivity|].
  cbn [filter]. pose proof (one_code_at_most pax) as Hone.
  destruct (has_ptc "ADT" pax), (has_ptc "CHD" pax), (has_ptc "INF" pax),
    (known_ptc pax); cbn [List.length] in *; lia.
Qed.

(** X15. The three quantities count the passengers by type and drop the
    rest: when [convert_bdfare_to_flyhub] returns, [AdultQuantity],
    [ChildQuantity] and [InfantQuantity] are the numbers of pax whose
    [ptc] is "ADT", "CHD" and "INF"; a pax of any other type is counted
    nowhere, so the three add up to the number of pax of a known type, at
    most the number of pax. *)
Theorem quantities_count_known_passengers payload out :
  convert_bdfare_to_flyhub payload = Return out ->
  exists paxes adults children infants journey segments,
    pax_of payload = Return paxes
    /\ out = JObj [("AdultQuantity", JNum adults);
                   ("ChildQuantity", JNum children);
                   ("InfantQuantity", JNum infants);
                   ("EndUserIp", JStr "103.124.251.147");
                   ("JourneyType", JStr journey);
                   ("Segments", JArr segments)]
    /\ adults = Z.of_nat (List.length (filter (has_ptc "ADT") paxes))
    /\ children = Z.of_nat (List.length (filter (has_ptc "CHD") paxes))
    /\ infants = Z.of_nat (List.length (filter (has_ptc "INF") paxes))
    /\ adults + children + infants
       = Z.of_nat (List.length (filter known_ptc paxes))
    /\ adults + children + infants <= Z.of_nat (List.length paxes)
    /\ (journey = "1" \/ journey = "2").
Proof.
  unfold convert_bdfare_to_flyhub. intros H.
  apply and_then_return in H as (paxes & Hpax & H).
  apply and_then_return in H as (a & Ha & H).
  rewrite Hpax in H. cbn [and_then] in H.
  apply and_then_return in H as (c & Hc & H).
  apply and_then_return in H as (i & Hi & H).
  do 3 returns H.
  unfold one_if_lower_is in H. apply and_then_return in H as (jt & Hjt & H).
  apply and_then_return in Hjt as (trip & Htrip & Hjt). inversion Hjt. subst jt.
  do 4 returns H. inversion H. subst out.
  apply count_ptc_counts in Ha, Hc, Hi.
  pose proof (codes_partition paxes) as Hpart.
  pose proof (filter_length_le known_ptc paxes) as Hle.
  eexists paxes, a, c, i, _, _.
  split; [exact Hpax|]. split; [reflexivity|].
  repeat (split; [assumption|]).
  split; [lia|]. split; [lia|].
  destruct (trip =? "oneway")%string; auto.
Qed.

Lemma convert_segments_each payload segments converted :
  convert_segments payload segments = Return converted ->
  Forall2 (fun segment s => convert_segment payload segment = Return s)
    segments converted.
Proof.
  revert converted. induction segments as [| segment segments IH]; cbn;
    intros converted H.
  - inversion H. constructor.
  - do 2 returns H. inversion H. subst. constructor; auto.
Qed.

(** X16. One FlyHub segment per leg, in the order of the legs: when
    [convert_bdfare_to_flyhub] returns, its ["Segments"] pair off with the
    entries of ["originDest"]; each carries its leg's origin code,
    destination code and departure date unchanged, and all carry the same
    cabin class, "1" when the cabin code is "economy" in any letter case
    and "2" otherwise. *)
Theorem one_segment_per_leg payload out :
  convert_bdfare_to_flyhub payload = Return out ->
  exists legs segments,
    origin_dest_of payload = Return legs
    /\ FlyhubRoute.subscript out "Segments" = Return (JArr segments)
    /\ List.length segments = List.length legs
    /\ exists cabin_class,
        (legs <> [] ->
         exists cabin,
           (get request := getitem payload "request" in
            get criteria := getitem request "shoppingCriteria" in
            get preferences := getitem criteria "travelPreferences" in
            getitem preferences "cabinCode") = Return (JStr cabin)
           /\ cabin_class = (if (lower cabin =? "economy")%string
                             then "1" else "2"))
        /\ Forall2
             (fun leg segment =>
                exists origin destination date,
                  (get dep := getitem leg "originDepRequest" in
                   getitem dep "iatA_LocationCode") = Return origin
                  /\ (get arr := getitem leg "destArrivalRequest" in
                      getitem arr "iatA_LocationCode") = Return destination
                  /\ (get dep := getitem leg "originDepRequest" in
                      getitem dep "date") = Return date
                  /\ segment = JObj [("Origin", origin);
                                     ("Destination", destination);
                                     ("CabinClass", JStr cabin_class);
                                     ("DepartureDateTime", date)])
             legs segments.
Proof.
  unfold convert_bdfare_to_flyhub. intros H.
  do 10 returns H.
  apply and_then_return in H as (request & Hrequest & H).
  apply and_then_return in H as (origin_dest & Hod & H).
  apply and_then_return in H as (legs & Hlegs & H).
  apply and_then_return in H as (segments & Hsegs & H).
  inversion H. subst out. clear H.
  exists legs, segments.
  split; [unfold origin_dest_of; rewrite Hrequest; cbn; rewrite Hod; exact Hlegs|].
  split; [reflexivity|].
  apply convert_segments_each in Hsegs.
  split; [symmetry; exact (Forall2_length Hsegs)|].
  set (cabin_of :=
         get request := getitem payload "request" in
         get criteria := getitem request "shoppingCriteria" in
         get preferences := getitem criteria "travelPreferences" in
         getitem preferences "cabinCode").
  assert (Heach : forall leg segment,
             convert_segment payload leg = Return segment ->
             exists cabin origin destination date,
               cabin_of = Return (JStr cabin)
               /\ (get dep := getitem leg "originDepRequest" in
                   getitem dep "iatA_LocationCode") = Return origin
               /\ (get arr := getitem leg "destArrivalRequest" in
                   getitem arr "iatA_LocationCode") = Return destination
               /\ (get dep := getitem leg "originDepRequest" in
                   getitem dep "date") = Return date
               /\ segment
                  = JObj [("Origin", origin); ("Destination", destination);
                          ("CabinClass",
                           JStr (if (lower cabin =? "economy")%string
                                 then "1" else "2"));
                          ("DepartureDateTime", date)]).
  { intros leg segment Hc. unfold convert_segment in Hc.
    apply and_then_return in Hc as (dep & Hdep & Hc).
    apply and_then_return in Hc as (origin & Horigin & Hc).
    apply and_then_return in Hc as (arr & Harr & Hc).
    apply and_then_return in Hc as (destination & Hdest & Hc).
    apply and_then_return in Hc as (req & Hreq & Hc).
    apply and_then_return in Hc as (criteria & Hcrit & Hc).
    apply and_then_return in Hc as (preferences & Hpref & Hc).
    apply and_then_return in Hc as (cabin & Hcabin & Hc).
    apply and_then_return in Hc as (cabin_class & Hclass & Hc).
    apply and_then_return in Hc as (dep' & Hdep' & Hc).
    apply and_then_return in Hc as (date & Hdate & Hc).
    unfold one_if_lower_is, lower_of in Hclass.
    destruct cabin as [| | | cabin | |]; try discriminate Hclass.
    cbn in Hclass. inversion Hclass. subst cabin_class.
    inversion Hc. subst segment.
    assert (dep' = dep) by congruence. subst dep'.
    exists cabin, origin, destination, date.
    subst cabin_of. rewrite Hreq. cbn. rewrite Hcrit. cbn. rewrite Hpref. cbn.
    rewrite Hdep, Harr. cbn. auto. }
  clear Hlegs. destruct legs as [| leg legs].
  - inversion Hsegs. subst.
    exists "1". split; [intros Hne; now elim Hne | constructor].
  - assert (Hfirst : exists segment, convert_segment payload leg = Return segment)
      by (inversion Hsegs; eauto).
    destruct Hfirst as (segment & Hfirst).
    destruct (Heach _ _ Hfirst) as (cabin & _ & _ & _ & Hcabin & _).
    exists (if (lower cabin =? "economy")%string then "1" else "2").
    split; [intros _; now exists cabin|].
    eapply Forall2_impl; [| exact Hsegs].
    intros leg' segment' Hone. cbn beta in Hone.
    destruct (Heach _ _ Hone)
      as (cabin' & o' & d' & dt' & Hcabin' & Ho' & Hd' & Hdt' & Hs').
    assert (cabin' = cabin) by congruence. subst cabin'.
    exists o', d', dt'. auto.
Qed.

End Adapter.

(** ** The combined route *)

Section AllOrNothing.
Import CombinedRoute.
Variables BDFARE_BASE_URL FLYHUB_BASE_URL : string.
Variables FLYHUB_USERNAME FLYHUB_API_KEY : json.
Variables bdfare_reply auth_reply search_reply : http_reply.
Variable rtt : Q.
Variable bdfare_fails_first : bool.

Notation "'route'" :=
  (combined_search BDFARE_BASE_URL FLYHUB_BASE_URL FLYHUB_USERNAME
     FLYHUB_API_KEY bdfare_reply auth_reply search_reply rtt
     bdfare_fails_first).
Notation "'bdfare'" := (fetch_bdfare_flights BDFARE_BASE_URL bdfare_reply).
Notation "'flyhub'" :=
  (FlyhubRoute.fetch_flyhub_flights FLYHUB_BASE_URL FLYHUB_USERNAME
     FLYHUB_API_KEY auth_reply search_reply rtt).

(** X17. The route is all or nothing.  Once the payload is converted, the
    BDFare request goes out, and the response holds both suppliers' bodies
    under ["bdfare"] and ["flyhub"] when both fetches return; when either
    fails there is no partial result: the request fails with HTTP 500
    whose detail is the text of a supplier's failure, so that a supplier's
    own status (a 404, a 401) is never the status of the response. *)
Theorem route_is_all_or_nothing payload flyhub_payload w :
  convert_bdfare_to_flyhub payload = Return flyhub_payload ->
  let bdfare_response := result_of (bdfare payload) in
  let flyhub_response := snd (flyhub flyhub_payload w) in
  fst (fst (route payload w))
  = [HttpxPost (BDFARE_BASE_URL ++ "/AirShopping") payload]
  /\ snd (fst (route payload w)) = fst (flyhub flyhub_payload w)
  /\ match bdfare_response, flyhub_response with
     | Return b, Return f =>
         snd (route payload w) = Return (JObj [("bdfare", b); ("flyhub", f)])
     | _, _ =>
         exists e,
           (bdfare_response = Raise e \/ flyhub_response = Raise e)
           /\ snd (route payload w) = Raise (HTTPException 500 (str_exn e))
     end.
Proof.
  intros Hconv. cbv zeta. unfold combined_search. rewrite Hconv.
  assert (Hsent : trace_of (bdfare payload)
                  = [HttpxPost (BDFARE_BASE_URL ++ "/AirShopping") payload]).
  { unfold fetch_bdfare_flights.
    destruct bdfare_reply as [s text [j | why] | msg]; cbn;
      try destruct (s =? 200); reflexivity. }
  destruct (bdfare payload) as [sent bdfare_response].
  destruct (flyhub flyhub_payload w) as [w' flyhub_response].
  cbn in Hsent |- *. subst sent.
  split; [reflexivity | split; [reflexivity|]].
  unfold gather.
  destruct bdfare_response as [b | eb], flyhub_response as [f | ef];
    [reflexivity | exists ef | exists eb | ]; auto.
  destruct bdfare_fails_first; [exists eb | exists ef]; auto.
Qed.

(** X18. A payload the adapter cannot read escapes the route as it is: the
    conversion runs before the [try], so its exception is raised unchanged,
    not as an [HTTPException], and nothing is sent or cached.  A body
    without a ["request"] entry fails so, with [KeyError('request')]. *)
Theorem unreadable_payload_escapes_the_route payload w e :
  convert_bdfare_to_flyhub payload = Raise e ->
  route payload w = ([], w, Raise e)
  /\ (forall fields, payload = JObj fields -> lookup "request" fields = None ->
                     e = KeyError "request").
Proof.
  intros Hconv. split.
  - unfold combined_search. now rewrite Hconv.
  - intros fields -> Hnone. revert Hconv.
    unfold convert_bdfare_to_flyhub, pax_of, getitem, FlyhubRoute.subscript.
    rewrite Hnone. cbn. congruence.
Qed.

End AllOrNothing.

(** ** The BDFare order functions *)

Section Orders.
Import BdfareOrders.
Variable BDFARE_BASE_URL : string.
Variable httpx_post : string -> json -> httpx_reply.
Variable raises_outside_2xx : bool.
Variable status_error_text : string -> Z -> string.

Notation "'ticket_cancel'" :=
  (fetch_bdfare_ticket_cancel BDFARE_BASE_URL httpx_post raises_outside_2xx
     status_error_text).
Notation "'ticket_issue'" :=
  (fetch_bdfare_ticket_issue BDFARE_BASE_URL httpx_post raises_outside_2xx
     status_error_text).
Notation "'airretrieve'" :=
  (fetch_bdfare_airretrieve BDFARE_BASE_URL httpx_post raises_outside_2xx
     status_error_text).
Notation "'airbook'" :=
  (fetch_bdfare_airbook BDFARE_BASE_URL httpx_post raises_outside_2xx
     status_error_text).
Notation "'airprebook'" :=
  (fetch_bdfare_airprebook BDFARE_BASE_URL httpx_post raises_outside_2xx
     status_error_text).
Notation "'airprice'" :=
  (fetch_bdfare_airprice BDFARE_BASE_URL httpx_post raises_outside_2xx
     status_error_text).
Notation "'error_status'" := (raises_for_status raises_outside_2xx).

(** X19. The ticket functions hide the supplier's status.
    [fetch_bdfare_ticket_cancel] and [fetch_bdfare_ticket_issue] send one
    POST, to [/OrderCancel] and [/OrderChange]; they return the body of an
    answer whose status is no error and which decodes, and every other
    outcome, an error status of BDFare included, is HTTP 500. *)
Theorem ticket_calls_answer_500 payload :
  let cancel_url := BDFARE_BASE_URL ++ "/OrderCancel" in
  let issue_url := BDFARE_BASE_URL ++ "/OrderChange" in
  trace_of (ticket_cancel payload) = [HttpxPost cancel_url payload]
  /\ trace_of (ticket_issue payload) = [HttpxPost issue_url payload]
  /\ match result_of (ticket_cancel payload) with
     | Return j =>
         exists status_code text,
           httpx_post cancel_url payload = Answered status_code text (Decoded j)
           /\ error_status status_code = false
     | Raise e => exists detail, e = HTTPException 500 detail
     end
  /\ match result_of (ticket_issue payload) with
     | Return j =>
         exists status_code text,
           httpx_post issue_url payload = Answered status_code text (Decoded j)
           /\ error_status status_code = false
     | Raise e => exists detail, e = HTTPException 500 detail
     end.
Proof.
  cbv zeta. split; [reflexivity | split; [reflexivity|]].
  split;
    unfold fetch_bdfare_ticket_cancel, fetch_bdfare_ticket_issue, guarded,
      post_and_decode; cbn;
    match goal with
    | |- context [httpx_post ?u payload] =>
        destruct (httpx_post u payload) as [s text [j | why] | kind msg]
    end;
    try destruct (error_status s) eqn:Hs; cbn; eauto.
Qed.

(** X20. The booking functions pass the supplier's status on.  When BDFare
    answers with an error status, [fetch_bdfare_airretrieve],
    [fetch_bdfare_airprebook] and [fetch_bdfare_airbook] fail with that
    status and BDFare's text ([fetch_bdfare_airbook] with "No error details
    provided" for an empty text); a transport failure or a body that does
    not decode is HTTP 500. *)
Theorem booking_calls_keep_the_status payload trace_id offer_ids request :
  let order := order_payload trace_id offer_ids request in
  (forall status_code text body,
      error_status status_code = true ->
      (httpx_post (BDFARE_BASE_URL ++ "/OrderRetrieve") payload
       = Answered status_code text body ->
       result_of (airretrieve payload)
       = Raise (HTTPException status_code
                  ("BDFare API returned error: " ++ text)))
      /\ (httpx_post (BDFARE_BASE_URL ++ "/OrderSell") order
          = Answered status_code text body ->
          result_of (airprebook trace_id offer_ids request)
          = Raise (HTTPException status_code
                     ("BDFare API returned error: " ++ text)))
      /\ (httpx_post (BDFARE_BASE_URL ++ "/OrderCreate") order
          = Answered status_code text body ->
          result_of (airbook trace_id offer_ids request)
          = Raise (HTTPException status_code
                     ("BDFare API returned error: "
                        ++ (if (text =? "")%string
                            then "No error details provided" else text)))))
  /\ (forall e,
         (forall s t b, httpx_post (BDFARE_BASE_URL ++ "/OrderRetrieve") payload
                        = Answered s t b -> error_status s = false) ->
         result_of (airretrieve payload) = Raise e ->
         exists detail, e = HTTPException 500 detail)
  /\ (forall e,
         (forall s t b, httpx_post (BDFARE_BASE_URL ++ "/OrderSell") order
                        = Answered s t b -> error_status s = false) ->
         result_of (airprebook trace_id offer_ids request) = Raise e ->
         exists detail, e = HTTPException 500 detail)
  /\ (forall e,
         (forall s t b, httpx_post (BDFARE_BASE_URL ++ "/OrderCreate") order
                        = Answered s t b -> error_status s = false) ->
         result_of (airbook trace_id offer_ids request) = Raise e ->
         exists detail, e = HTTPException 500 detail).
Proof.
  cbv zeta.
  unfold fetch_bdfare_airretrieve, fetch_bdfare_airprebook,
    fetch_bdfare_airbook, guarded, post_and_decode.
  split; [| repeat split].
  - intros s text body Hs.
    repeat split; intros ->; cbn; rewrite Hs; reflexivity.
  - intros e Hok. cbn.
    destruct (httpx_post _ payload) as [s text [j | why] | kind msg];
      try rewrite (Hok _ _ _ eq_refl); cbn; intros H; inversion H; eauto.
  - intros e Hok. cbn.
    destruct (httpx_post _ (order_payload trace_id offer_ids request))
      as [s text [j | why] | kind msg];
      try rewrite (Hok _ _ _ eq_refl); cbn; intros H; inversion H; eauto.
  - intros e Hok. cbn.
    destruct (httpx_post _ (order_payload trace_id offer_ids request))
      as [s text [j | why] | kind msg];
      try rewrite (Hok _ _ _ eq_refl); cbn; intros H; inversion H; eauto.
Qed.

(** X21. [fetch_bdfare_airprice] lets a bad body through.  It sends one
    POST to [/OfferPrice]; a read timeout is HTTP 500 with a fixed text and
    an error status is passed on, but when the answer has no error status
    and its body does not decode the decoder's [ValueError] is raised as it
    is, not an [HTTPException]; where [fetch_bdfare_airretrieve] answers
    500 to the same body. *)
Theorem airprice_lets_a_bad_body_through trace_id offer_ids payload :
  let price_payload :=
    JObj [("traceId", JStr trace_id); ("offerId", JArr (map JStr offer_ids))] in
  let price_url := BDFARE_BASE_URL ++ "/OfferPrice" in
  trace_of (airprice trace_id offer_ids) = [HttpxPost price_url price_payload]
  /\ (forall msg, httpx_post price_url price_payload = Failed ReadTimeout msg ->
        result_of (airprice trace_id offer_ids)
        = Raise (HTTPException 500 "The BDFare API request timed out."))
  /\ (forall status_code text why,
         error_status status_code = false ->
         (httpx_post price_url price_payload
          = Answered status_code text (Undecodable why) ->
          result_of (airprice trace_id offer_ids) = Raise (ValueError why))
         /\ (httpx_post (BDFARE_BASE_URL ++ "/OrderRetrieve") payload
             = Answered status_code text (Undecodable why) ->
             result_of (airretrieve payload)
             = Raise (HTTPException 500
                        ("Unexpected error fetching BDFare AirRetrieve: " ++ why)))).
Proof.
  cbv zeta.
  unfold fetch_bdfare_airprice, fetch_bdfare_airretrieve, guarded,
    post_and_decode.
  split; [reflexivity | split].
  - intros msg ->. reflexivity.
  - intros s text why Hs. split; intros ->; cbn; rewrite Hs; reflexivity.
Qed.

End Orders.

(** ** The properties above, on concrete requests *)

Lemma returned_flights_are_a_run_witness :
  exists M before after,
    App.merged_flights Examples.flyhub_up_bdfare_down
      (Examples.request_to "flyhub") (-1) 2
    = ([FlyhubFetch Examples.flyhub_request (-1) 2], Return M)
    /\ M = (before
            ++ [Examples.offer "fh-2" "flyhub"; Examples.offer "fh-3" "flyhub"]
            ++ after)%list
    /\ 5 = Z.of_nat (List.length M) /\ -1 = -1 /\ 2 = 2.
Proof.
  exact (returned_flights_are_a_run Examples.flyhub_up_bdfare_down
           (Examples.request_to "flyhub") (-1) 2
           [FlyhubFetch Examples.flyhub_request (-1) 2]
           {| CombinedService.page := -1; CombinedService.size := 2;
              CombinedService.total_flights := 5;
              CombinedService.flights :=
                [Examples.offer "fh-2" "flyhub"; Examples.offer "fh-3" "flyhub"] |}
           eq_refl).
Defined.

Lemma pages_tile_the_list_witness :
  List.concat
    (map (fun p => CombinedService.flights
                     (CombinedService.paginate Examples.flyhub_offers
                        (Z.of_nat p) 2))
       (seq 1 3))
  = Examples.flyhub_offers.
Proof.
  apply (proj2 (pages_tile_the_list Examples.flyhub_offers 2 3 ltac:(lia))).
  cbn. lia.
Defined.

Lemma page_zero_is_empty_witness :
  App.combined_search Examples.flyhub_up_bdfare_down
    (Examples.request_to "flyhub") 0 50
  = ([FlyhubFetch Examples.flyhub_request 0 50],
     Return {| CombinedService.page := 0; CombinedService.size := 50;
               CombinedService.total_flights := 5;
               CombinedService.flights := [] |}).
Proof.
  exact (page_zero_is_empty Examples.flyhub_up_bdfare_down
           (Examples.request_to "flyhub") 50
           [FlyhubFetch Examples.flyhub_request 0 50]
           Examples.flyhub_offers eq_refl).
Defined.

Lemma negative_size_drops_the_tail_witness :
  App.combined_search Examples.flyhub_up_bdfare_down
    (Examples.request_to "flyhub") 1 (-1)
  = ([FlyhubFetch Examples.flyhub_request 1 (-1)],
     Return {| CombinedService.page := 1; CombinedService.size := -1;
               CombinedService.total_flights := 5;
               CombinedService.flights :=
                 [Examples.offer "fh-1" "flyhub"; Examples.offer "fh-2" "flyhub";
                  Examples.offer "fh-3" "flyhub"; Examples.offer "fh-4" "flyhub"] |}).
Proof.
  exact (negative_size_drops_the_tail Examples.flyhub_up_bdfare_down
           (Examples.request_to "flyhub") (-1)
           [FlyhubFetch Examples.flyhub_request 1 (-1)]
           Examples.flyhub_offers ltac:(lia) eq_refl).
Defined.

Lemma exceptions_leave_as_http_witness :
  App.combined_search Examples.all_suppliers_down
    (Examples.request_to "flyhub") 1 50
  = ([FlyhubFetch Examples.flyhub_request 1 50],
     Raise (HTTPException 422
              "Validation Error: Expecting value: line 1 column 1 (char 0)")).
Proof.
  exact (proj1 (exceptions_leave_as_http Examples.all_suppliers_down
                  (Examples.request_to "flyhub") 1 50
                  [FlyhubFetch Examples.flyhub_request 1 50]
                  (ValueError "Expecting value: line 1 column 1 (char 0)")
                  eq_refl)).
Defined.

Lemma adapter_failure_precedes_dispatch_witness :
  App.combined_search MoreExamples.adapter_fails (Examples.request_to "all") 1 50
  = ([], Raise (HTTPException 422
                  "Missing key in payload: 'shoppingCriteria'")).
Proof.
  exact (proj1 (adapter_failure_precedes_dispatch MoreExamples.adapter_fails
                  (Examples.request_to "all") 1 50
                  (KeyError "shoppingCriteria")
                  eq_refl (or_intror eq_refl) eq_refl)).
Defined.

Lemma first_failure_is_discarded_witness :
  result_of (App.fetch_bdfare_flights Examples.all_suppliers_down
               Examples.search_request)
  = Raise (HTTPException 503 "HTTP request failed: unavailable").
Proof.
  refine (eq_trans
            (proj2 (first_failure_is_discarded Examples.all_suppliers_down
                      Examples.search_request Examples.search_request
                      eq_refl) _)
            eq_refl).
  intros text j. discriminate.
Defined.

Lemma other_success_is_posted_twice_witness :
  App.fetch_bdfare_flights MoreExamples.bdfare_answers_201
    Examples.search_request
  = ([HttpxPost "https://bdfare.example/api/AirShopping" Examples.search_request;
      RequestsPost "https://bdfare.example/api/AirShopping" Examples.search_request],
     Return MoreExamples.shopping_result).
Proof.
  exact (other_success_is_posted_twice MoreExamples.bdfare_answers_201
           Examples.search_request Examples.search_request 201 ""
           MoreExamples.shopping_result eq_refl eq_refl eq_refl
           ltac:(discriminate) ltac:(lia)).
Defined.

Lemma unconfigured_route_sends_nothing_witness :
  BdfareRoute.search_flights None (Some "key")
    (fun _ _ => MoreExamples.ok_200 MoreExamples.shopping_result)
    (fun _ _ => SpawnFailure "curl: not found") Examples.search_request
  = ([], Raise (HTTPException 500 "BDFare Base URL is not configured.")).
Proof.
  exact (unconfigured_route_sends_nothing None (Some "key")
           (fun _ _ => MoreExamples.ok_200 MoreExamples.shopping_result)
           (fun _ _ => SpawnFailure "curl: not found") Examples.search_request
           (or_introl eq_refl)).
Defined.

Lemma search_returns_an_object_witness :
  BdfareRoute.success
    {| BdfareRoute.success := true;
       BdfareRoute.data := [("offersGroup", JArr [])] |} = true.
Proof.
  exact (proj1 (search_returns_an_object
                  (Some "https://bdfare.example/api") (Some "key")
                  (fun _ _ => MoreExamples.ok_200 MoreExamples.shopping_result)
                  (fun _ _ => SpawnFailure "curl: not found")
                  Examples.search_request
                  [HttpxPost "https://bdfare.example/api/AirShopping"
                     Examples.search_request]
                  {| BdfareRoute.success := true;
                     BdfareRoute.data := [("offersGroup", JArr [])] |}
                  eq_refl)).
Defined.

Lemma search_failures_witness :
  BdfareRoute.search_flights (Some "https://bdfare.example/api") (Some "key")
    (fun _ _ => RouteExamples.not_found)
    (fun _ _ => SpawnFailure "curl: not found") Examples.search_request
  = ([HttpxPost "https://bdfare.example/api/AirShopping" Examples.search_request],
     Raise (HTTPException 404 "BDFare API error: no such route")).
Proof.
  exact (proj1 (search_failures (Some "https://bdfare.example/api") (Some "key")
                  (fun _ _ => RouteExamples.not_found)
                  (fun _ _ => SpawnFailure "curl: not found")
                  Examples.search_request eq_refl eq_refl)
           404 "no such route" (Undecodable "") eq_refl ltac:(discriminate)).
Defined.

Lemma fresh_token_lasts_an_hour_witness :
  let w' :=
    fst (FlyhubRoute.authenticate_flyhub FlyhubExamples.base_url
           FlyhubExamples.username FlyhubExamples.api_key
           (FlyhubExamples.token_reply "tok-A") (1 # 2) FlyhubExamples.cold) in
  exists text fields tok,
    FlyhubExamples.token_reply "tok-A"
    = Response 200 text (Decoded (JObj fields))
    /\ lookup "TokenId" fields = Some tok
    /\ FlyhubRoute.token (FlyhubRoute.cached_token w') = tok
    /\ FlyhubRoute.expires_at (FlyhubRoute.cached_token w')
       = FlyhubRoute.float_add ((100 # 1) + (1 # 2)) (3600 # 1)
    /\ (forall t,
           (t < ((100 # 1) + (1 # 2) + (3600 # 1))
                * (1 - FlyhubRoute.unit_roundoff))%Q ->
           FlyhubRoute.needs_refresh (FlyhubRoute.cached_token w') t
           = negb (truthy tok))
    /\ (forall t,
           (((100 # 1) + (1 # 2) + (3600 # 1))
            * (1 + FlyhubRoute.unit_roundoff) <= t)%Q ->
           FlyhubRoute.needs_refresh (FlyhubRoute.cached_token w') t = true).
Proof.
  refine (fresh_token_lasts_an_hour FlyhubExamples.base_url
            FlyhubExamples.username FlyhubExamples.api_key
            (FlyhubExamples.token_reply "tok-A") (1 # 2)
            FlyhubExamples.cold _ _ eq_refl).
  unfold Qle. cbn. lia.
Defined.

Lemma second_fetch_reuses_the_token_witness :
  FlyhubRoute.bearers
    (FlyhubRoute.calls
       (fst (FlyhubRoute.fetch_flyhub_flights FlyhubExamples.base_url
               FlyhubExamples.username FlyhubExamples.api_key
               (FlyhubExamples.token_reply "tok-A") FlyhubExamples.flights_reply
               (1 # 2) Examples.flyhub_request
               (fst (FlyhubRoute.fetch_flyhub_flights FlyhubExamples.base_url
                       FlyhubExamples.username FlyhubExamples.api_key
                       (FlyhubExamples.token_reply "tok-A")
                       FlyhubExamples.flights_reply (1 # 2)
                       Examples.flyhub_request FlyhubExamples.cold)))))
  = [JStr "tok-A"; JStr "tok-A"].
Proof.
  assert (Hclock : (0 <= FlyhubRoute.now FlyhubExamples.cold + (1 # 2))%Q)
    by (unfold Qle; cbn; lia).
  assert (Hbound : (FlyhubRoute.now FlyhubExamples.cold + (1 # 2)
                    <= 4503599627370496 # 1)%Q) by (unfold Qle; cbn; lia).
  assert (Hrtt : (1 # 2 <= 3599 # 1)%Q) by (unfold Qle; cbn; lia).
  rewrite (proj1 (second_fetch_reuses_the_token FlyhubExamples.base_url
                    FlyhubExamples.username FlyhubExamples.api_key
                    (FlyhubExamples.token_reply "tok-A")
                    FlyhubExamples.flights_reply (1 # 2)
                    FlyhubExamples.cold "" [("TokenId", JStr "tok-A")]
                    (JStr "tok-A") Examples.flyhub_request
                    Examples.flyhub_request
                    eq_refl eq_refl eq_refl eq_refl Hclock Hbound Hrtt)).
  reflexivity.
Defined.

Lemma failed_authentication_sends_no_search_witness :
  FlyhubRoute.fetch_flyhub_flights FlyhubExamples.base_url
    FlyhubExamples.username FlyhubExamples.api_key
    RouteExamples.unauthorized FlyhubExamples.flights_reply (1 # 2)
    Examples.flyhub_request FlyhubExamples.cold
  = ({| FlyhubRoute.cached_token := FlyhubRoute.initial_cache;
        FlyhubRoute.now := Qplus (100 # 1) (1 # 2);
        FlyhubRoute.calls :=
          [FlyhubRoute.Authenticate
             (FlyhubRoute.authenticate_url FlyhubExamples.base_url)
             (FlyhubRoute.credentials FlyhubExamples.username
                FlyhubExamples.api_key)] |},
     Raise (HTTPException 401 "FlyHub Authentication Failed")).
Proof.
  exact (proj1 (failed_authentication_sends_no_search FlyhubExamples.base_url
                  FlyhubExamples.username FlyhubExamples.api_key
                  RouteExamples.unauthorized FlyhubExamples.flights_reply
                  (1 # 2) Examples.flyhub_request FlyhubExamples.cold
                  _ (HTTPException 401 "FlyHub Authentication Failed")
                  eq_refl eq_refl)).
Defined.

Lemma quantities_count_known_passengers_witness :
  CombinedRoute.convert_bdfare_to_flyhub RouteExamples.family_trip
  = Return MoreExamples.family_trip_for_flyhub
  /\ exists paxes adults children infants journey segments,
      CombinedRoute.pax_of RouteExamples.family_trip = Return paxes
      /\ MoreExamples.family_trip_for_flyhub
         = JObj [("AdultQuantity", JNum adults);
                 ("ChildQuantity", JNum children);
                 ("InfantQuantity", JNum infants);
                 ("EndUserIp", JStr "103.124.251.147");
                 ("JourneyType", JStr journey);
                 ("Segments", JArr segments)]
      /\ adults = Z.of_nat (List.length (filter (RouteExamples.has_ptc "ADT") paxes))
      /\ children = Z.of_nat (List.length (filter (RouteExamples.has_ptc "CHD") paxes))
      /\ infants = Z.of_nat (List.length (filter (RouteExamples.has_ptc "INF") paxes))
      /\ adults + children + infants
         = Z.of_nat (List.length (filter RouteExamples.known_ptc paxes))
      /\ adults + children + infants <= Z.of_nat (List.length paxes)
      /\ (journey = "1" \/ journey = "2").
Proof.
  split; [reflexivity|].
  exact (quantities_count_known_passengers RouteExamples.family_trip
           MoreExamples.family_trip_for_flyhub eq_refl).
Defined.

Lemma one_segment_per_leg_witness :
  exists legs segments,
    RouteExamples.origin_dest_of RouteExamples.family_trip = Return legs
    /\ FlyhubRoute.subscript MoreExamples.family_trip_for_flyhub "Segments"
       = Return (JArr segments)
    /\ List.length segments = List.length legs.
Proof.
  destruct (one_segment_per_leg RouteExamples.family_trip
              MoreExamples.family_trip_for_flyhub eq_refl)
    as (legs & segments & Hlegs & Hsegments & Hlength & _).
  exists legs, segments. auto.
Defined.

Lemma route_is_all_or_nothing_witness :
  snd (CombinedRoute.combined_search "https://bdfare.example/api"
         FlyhubExamples.base_url FlyhubExamples.username FlyhubExamples.api_key
         RouteExamples.not_found (FlyhubExamples.token_reply "tok-A")
         FlyhubExamples.flights_reply (1 # 2) true
         RouteExamples.family_trip FlyhubExamples.cold)
  = Raise (HTTPException 500 "404: no such route").
Proof.
  destruct (proj2 (proj2 (route_is_all_or_nothing "https://bdfare.example/api"
                            FlyhubExamples.base_url FlyhubExamples.username
                            FlyhubExamples.api_key RouteExamples.not_found
                            (FlyhubExamples.token_reply "tok-A")
                            FlyhubExamples.flights_reply (1 # 2) true
                            RouteExamples.family_trip
                            MoreExamples.family_trip_for_flyhub
                            FlyhubExamples.cold eq_refl)))
    as (e & [He | He] & Hroute);
    [| discriminate He].
  rewrite Hroute. inversion He. reflexivity.
Defined.

Lemma unreadable_payload_escapes_the_route_witness :
  CombinedRoute.combined_search "https://bdfare.example/api"
    FlyhubExamples.base_url FlyhubExamples.username FlyhubExamples.api_key
    RouteExamples.not_found (FlyhubExamples.token_reply "tok-A")
    FlyhubExamples.flights_reply (1 # 2) true
    RouteExamples.no_request FlyhubExamples.cold
  = ([], FlyhubExamples.cold, Raise (KeyError "request")).
Proof.
  exact (proj1 (unreadable_payload_escapes_the_route
                  "https://bdfare.example/api"
                  FlyhubExamples.base_url FlyhubExamples.username
                  FlyhubExamples.api_key RouteExamples.not_found
                  (FlyhubExamples.token_reply "tok-A")
                  FlyhubExamples.flights_reply (1 # 2) true
                  RouteExamples.no_request FlyhubExamples.cold
                  (KeyError "request") eq_refl)).
Defined.
